(** * colortools.base: the [Color] value type and its constructors

    A shallow embedding of [colortools/base.py] (CPython 3.10) and the
    properties of it that the specification states.

    Conventions of the embedding:
    - Python [int] is [Z]; [&], [<<], [>>] are [Z.land], [Z.shiftl],
      [Z.shiftr] (two's complement on unbounded integers, as in Python).
    - Python [float] is the kernel's binary64 [float]; [sqrt] and the four
      arithmetic operations are the IEEE ones.  The C library's [acos] and
      [pow], the random generator and the builtin [hash] are taken from a
      [platform] record.
    - Python [str] is [string], read as a sequence of code points below 256.
    - A call either returns a value or raises: [result A]. *)

From Stdlib Require Import ZArith String Ascii List Bool Lia.
From Stdlib Require Import Floats.PrimFloat Floats.FloatOps Floats.SpecFloat.
From stdpp Require Import gmap strings list.

Set Warnings "-register-all".

Open Scope string_scope.
Open Scope Z_scope.

(** ** Exceptions and results *)

Inductive exn : Set :=
| TypeError | ValueError | KeyError | IndexError | AttributeError
| ZeroDivisionError | OverflowError | NotImplementedError.

Inductive result (A : Type) : Type :=
| Ok (a : A)
| Raise (e : exn).
Arguments Ok {A} a.
Arguments Raise {A} e.

Definition bind {A B} (r : result A) (k : A -> result B) : result B :=
  match r with
  | Ok a => k a
  | Raise e => Raise e
  end.

Notation "'let*' x ':=' r 'in' k" := (bind r (fun x => k))
  (at level 10, x pattern, r at level 100, k at level 200).

(** [try: body except (e1, e2, ...): handler] *)
Definition try_except {A} (body : result A) (caught : exn -> bool)
    (handler : result A) : result A :=
  match body with
  | Ok a => Ok a
  | Raise e => if caught e then handler else Raise e
  end.

Fixpoint mapM {A B} (f : A -> result B) (l : list A) : result (list B) :=
  match l with
  | [] => Ok []
  | x :: t => let* y := f x in let* ys := mapM f t in Ok (y :: ys)
  end.

(** ** Values *)

(** The four slots of a [Color] object once [_fromrgba] has run. *)
Record Color : Set := mkColor {
  _red : Z;
  _green : Z;
  _blue : Z;
  _alpha : Z
}.

(** A [Color] object as [object.__new__] leaves it ([None]: the slots were
    never assigned) or as [_fromrgba] leaves it. *)
Definition instance : Set := option Color.

Inductive pyval : Type :=
| PNone
| PNotImplemented
| PBool (b : bool)
| PInt (z : Z)
| PFloat (f : float)
| PStr (s : string)
| PTuple (l : list pyval)
| PList (l : list pyval)
| PSlice (start stop step : option Z)
| PColor (c : instance)
| PObject (name : string).
    (* any other object (a bound method, a class-level constant): it has no
       length, no iteration, no conversion to int and none of the attributes
       this module reads *)

Definition kwargs : Type := list (string * pyval).

(** What the code takes from outside the module. *)
Record platform : Type := {
  libm_acos : float -> float;           (* C acos *)
  libm_pow : float -> float -> float;   (* C pow *)
  random_randint : nat -> Z;            (* n-th draw of random.randint(0, 255) *)
  builtin_hash : pyval -> result Z      (* hash(v) *)
}.

(** ** Builtins *)

Definition Z_of_bool (b : bool) : Z := if b then 1 else 0.

(** [bool(v)] *)
Definition truthy (v : pyval) : bool :=
  match v with
  | PNone => false
  | PNotImplemented => true
  | PBool b => b
  | PInt z => negb (z =? 0)
  | PFloat f => negb (PrimFloat.eqb f 0%float)
  | PStr s => negb (String.eqb s "")
  | PTuple l | PList l => match l with [] => false | _ => true end
  | PSlice _ _ _ => true
  | PColor _ => true          (* __len__ returns 4 *)
  | PObject _ => true
  end.

(** [a or b] *)
Definition py_or (a b : pyval) : pyval := if truthy a then a else b.

(** Iterating a [Color] runs [__iter__], which reads the four slots. *)
Definition Color_iter (c : Color) : list Z :=
  [_red c; _green c; _blue c; _alpha c].

Definition chars (s : string) : list pyval :=
  map (fun a => PStr (String a "")) (list_ascii_of_string s).

(** [list(v)]: the items an iteration over [v] yields. *)
Definition py_iter (v : pyval) : result (list pyval) :=
  match v with
  | PTuple l | PList l => Ok l
  | PStr s => Ok (chars s)
  | PColor (Some c) => Ok (map PInt (Color_iter c))
  | PColor None => Raise AttributeError
  | _ => Raise TypeError
  end.

(** [len(v)] *)
Definition py_len (v : pyval) : result Z :=
  match v with
  | PTuple l | PList l => Ok (Z.of_nat (length l))
  | PStr s => Ok (Z.of_nat (String.length s))
  | PColor _ => Ok 4
  | _ => Raise TypeError
  end.

(** ** Strings *)

Definition code (c : ascii) : Z := Z.of_nat (nat_of_ascii c).

(** The characters [int(str, base)] skips at both ends: the ASCII white
    space and, below 256, the two Unicode spaces U+0085 and U+00A0. *)
Definition is_space (c : ascii) : bool :=
  let n := code c in
  ((9 <=? n) && (n <=? 13)) || (n =? 32) || (n =? 133) || (n =? 160).

(** The value of a digit in any base up to 36. *)
Definition digit_value (c : ascii) : option Z :=
  let n := code c in
  if (48 <=? n) && (n <=? 57) then Some (n - 48)
  else if (97 <=? n) && (n <=? 122) then Some (n - 87)
  else if (65 <=? n) && (n <=? 90) then Some (n - 55)
  else None.

Fixpoint lstrip (s : string) : string :=
  match s with
  | String c t => if is_space c then lstrip t else s
  | EmptyString => s
  end.

Fixpoint all_space (s : string) : bool :=
  match s with
  | String c t => is_space c && all_space t
  | EmptyString => true
  end.

(** The digit scan of [int]: the longest run of digits of the base and
    underscores.  Two underscores in a row or an underscore at the end are
    refused; the result is the value, the number of digits and the rest. *)
Fixpoint scan_digits (base acc : Z) (count : nat) (prev_underscore : bool)
    (s : string) : option (Z * nat * string) :=
  let stop := if prev_underscore then None else Some (acc, count, s) in
  match s with
  | String c t =>
      if Ascii.eqb c "_"%char then
        if prev_underscore then None
        else scan_digits base acc count true t
      else
        match digit_value c with
        | Some d =>
            if d <? base
            then scan_digits base (acc * base + d) (S count) false t
            else stop
        | None => stop
        end
  | EmptyString => stop
  end.

(** [int(s, base)] for a string [s] and [base] 10 or 16. *)
Definition int_of_string (s : string) (base : Z) : result Z :=
  let s := lstrip s in
  let '(negative, s) :=
    match s with
    | String "+"%char t => (false, t)
    | String "-"%char t => (true, t)
    | _ => (false, s)
    end in
  let s :=
    match s with
    | String "0"%char (String x t) =>
        if (base =? 16) && (Ascii.eqb x "x"%char || Ascii.eqb x "X"%char)
        then match t with String "_"%char t' => t' | _ => t end
        else s
    | _ => s
    end in
  match s with
  | String "_"%char _ => Raise ValueError
  | _ =>
      match scan_digits base 0 0%nat false s with
      | Some (v, S _, rest) =>
          if all_space rest then Ok (if negative then - v else v)
          else Raise ValueError
      | _ => Raise ValueError
      end
  end.

(** [s.startswith('#')] *)
Definition startswith_hash (s : string) : bool :=
  match s with
  | String "#"%char _ => true
  | _ => false
  end.

(** [s[1:]] *)
Definition drop_first (s : string) : string :=
  match s with
  | String _ t => t
  | EmptyString => EmptyString
  end.

(** [''.join(c + c for c in s)] *)
Fixpoint double_chars (s : string) : string :=
  match s with
  | String c t => String c (String c (double_chars t))
  | EmptyString => EmptyString
  end.

(** [s[2 * i:2 * i + 2]] *)
Definition pair_at (s : string) (i : nat) : string :=
  substring (2 * i) 2 s.

(** [str.lower] on one code point below 256. *)
Definition lower_char (c : ascii) : ascii :=
  let n := code c in
  if ((65 <=? n) && (n <=? 90))
     || ((192 <=? n) && (n <=? 222) && negb (n =? 215))
  then ascii_of_nat (nat_of_ascii c + 32)
  else c.

Fixpoint lower (s : string) : string :=
  match s with
  | String c t => String (lower_char c) (lower t)
  | EmptyString => EmptyString
  end.

(** ** Numbers *)

(** [float(z)]: the nearest binary64, ties to even; an integer too large for
    a float raises. *)
Definition float_of_int (z : Z) : result float :=
  let f := SF2Prim (binary_normalize prec emax z 0 false) in
  if is_infinity f then Raise OverflowError else Ok f.

(** [a / b] on two ints: the correctly rounded quotient.  The quotient is
    taken with at least 56 bits and a sticky bit, then rounded once. *)
Definition int_truediv (a b : Z) : result float :=
  if b =? 0 then Raise ZeroDivisionError
  else
    let negative := xorb (a <? 0) (b <? 0) in
    let n := Z.abs a in
    let d := Z.abs b in
    if n =? 0 then Ok (if negative then (-0)%float else 0%float)
    else
      let k := Z.max 0 (57 + Z.log2 d - Z.log2 n) in
      let q := (n * 2 ^ k) / d in
      let sticky := if (n * 2 ^ k) mod d =? 0 then 0 else 1 in
      let m := 2 * q + sticky in
      let f := SF2Prim (binary_normalize prec emax
                          (if negative then - m else m) (- k - 1) false) in
      if is_infinity f then Raise OverflowError else Ok f.

(** [a / b] on two floats. *)
Definition float_truediv (a b : float) : result float :=
  if PrimFloat.eqb b 0%float then Raise ZeroDivisionError
  else Ok (PrimFloat.div a b).

(** [int(f)]: towards zero. *)
Definition int_of_float (f : float) : result Z :=
  match Prim2SF f with
  | S754_zero _ => Ok 0
  | S754_infinity _ => Raise OverflowError
  | S754_nan => Raise ValueError
  | S754_finite s m e =>
      let v := if 0 <=? e then Z.pos m * 2 ^ e else Z.pos m / 2 ^ (- e) in
      Ok (if s then - v else v)
  end.

(** [z == f] for an int and a float compares the exact values. *)
Definition int_eq_float (z : Z) (f : float) : bool :=
  match Prim2SF f with
  | S754_zero _ => z =? 0
  | S754_finite s m e =>
      let sign := if s then -1 else 1 in
      if 0 <=? e then z =? sign * (Z.pos m * 2 ^ e)
      else (Z.pos m mod 2 ^ (- e) =? 0) && (z =? sign * (Z.pos m / 2 ^ (- e)))
  | _ => false
  end.

(** [int(v)].  A string is read in base 10; the cap that later 3.10
    releases put on the number of decimal digits is not modelled. *)
Definition py_int (v : pyval) : result Z :=
  match v with
  | PInt z => Ok z
  | PBool b => Ok (Z_of_bool b)
  | PFloat f => int_of_float f
  | PStr s => int_of_string s 10
  | _ => Raise TypeError
  end.

(** [isinstance(v, int)]; [bool] is a subclass of [int]. *)
Definition as_int (v : pyval) : option Z :=
  match v with
  | PInt z => Some z
  | PBool b => Some (Z_of_bool b)
  | _ => None
  end.

(** [x == y] for an int [x], a component of a [Color].  Against a [Color]
    the int defers to [Color.__eq__(y, x)], which finds no [_red] on the int,
    enters its handler and fails on [len(x)]. *)
Definition int_eq (x : Z) (y : pyval) : result bool :=
  match y with
  | PInt z => Ok (x =? z)
  | PBool b => Ok (x =? Z_of_bool b)
  | PFloat f => Ok (int_eq_float x f)
  | PColor _ => Raise TypeError
  | _ => Ok false
  end.

(** [all(x == y for (x, y) in zip(xs, ys))]: stops at the first pair that
    differs and at the end of the shorter sequence. *)
Fixpoint all_eq (xs : list Z) (ys : list pyval) : result bool :=
  match xs, ys with
  | x :: xs', y :: ys' =>
      let* b := int_eq x y in
      if b then all_eq xs' ys' else Ok false
  | _, _ => Ok true
  end.

(** ** Calls *)

Fixpoint lookup_kw (name : string) (kw : kwargs) : option pyval :=
  match kw with
  | [] => None
  | (k, v) :: t => if String.eqb k name then Some v else lookup_kw name t
  end.

(** A call with positional arguments [pos] and keywords [kw] of a function
    whose parameters are [params], each with its default if it has one: the
    values of the parameters in order.  Too many positional arguments, a
    keyword that names no parameter or one already given by position, and a
    parameter left without a value are a [TypeError].  The keys of [kw] are
    distinct, as in a Python dict. *)
Definition bind_args (params : list (string * option pyval))
    (pos : list pyval) (kw : kwargs) : result (list pyval) :=
  let n := length pos in
  if (length params <? n)%nat then Raise TypeError
  else
    let rest := drop n params in
    if forallb (fun '(k, _) => existsb (fun '(p, _) => String.eqb k p) rest) kw
    then
      let* vs := mapM (fun '(p, default) =>
                         match lookup_kw p kw, default with
                         | Some v, _ => Ok v
                         | None, Some v => Ok v
                         | None, None => Raise TypeError
                         end) rest in
      Ok (pos ++ vs)%list
    else Raise TypeError.

(** ** Construction *)

Definition _fromrgba (r g b a : pyval) : result Color :=
  let* red := py_int r in
  let* green := py_int g in
  let* blue := py_int b in
  let* alpha := py_int a in
  Ok (mkColor red green blue alpha).

(** [self._fromrgba] applied to [pos] and [kw], with the signature
    [_fromrgba(self, r=0, g=0, b=0, a=255)]. *)
Definition call_fromrgba (pos : list pyval) (kw : kwargs) : result Color :=
  let* vs := bind_args [("r", Some (PInt 0)); ("g", Some (PInt 0));
                        ("b", Some (PInt 0)); ("a", Some (PInt 255))] pos kw in
  match vs with
  | [r; g; b; a] => _fromrgba r g b a
  | _ => Raise TypeError
  end.

Definition str_len (s : string) : Z := Z.of_nat (String.length s).

Definition _fromhex (value : string) (alpha : pyval) : result Color :=
  let value := drop_first value in
  let value :=
    if (str_len value =? 3) || (str_len value =? 4)
    then double_chars value else value in
  if str_len value =? 6 then
    let a := alpha in
    let* r := int_of_string (pair_at value 0) 16 in
    let* g := int_of_string (pair_at value 1) 16 in
    let* b := int_of_string (pair_at value 2) 16 in
    _fromrgba (PInt r) (PInt g) (PInt b) a
  else if str_len value =? 8 then
    let* r := int_of_string (pair_at value 0) 16 in
    let* g := int_of_string (pair_at value 1) 16 in
    let* b := int_of_string (pair_at value 2) 16 in
    let* a := int_of_string (pair_at value 3) 16 in
    _fromrgba (PInt r) (PInt g) (PInt b) (PInt a)
  else Raise ValueError.

(** [self._fromhex(value, **kw)] with the signature
    [_fromhex(self, value, alpha=255)]. *)
Definition call_fromhex (value : string) (kw : kwargs) : result Color :=
  let* vs := bind_args [("value", None); ("alpha", Some (PInt 255))]
               [PStr value] kw in
  match vs with
  | [_; alpha] => _fromhex value alpha
  | _ => Raise TypeError
  end.

(** [self._CACHE[value].rgba]: the registry holds [Color] objects. *)
Definition _fromname (cache : gmap string instance) (value : string)
    : result Color :=
  let value := lower value in
  match cache !! value with
  | None => Raise KeyError
  | Some None => Raise AttributeError
  | Some (Some c) => call_fromrgba (map PInt (Color_iter c)) []
  end.

(** [self._fromname(value, **kw)] with the signature
    [_fromname(self, value)]. *)
Definition call_fromname (cache : gmap string instance) (value : string)
    (kw : kwargs) : result Color :=
  let* _ := bind_args [("value", None)] [PStr value] kw in
  _fromname cache value.

Definition initialised (r : result Color) : result instance :=
  let* c := r in Ok (Some c).

(** [Color.__init__(self, *args, **kwargs)] on a fresh object: the state of
    the object when the call returns.  The last branch builds a [TypeError]
    and drops it, and a single argument of no listed type matches no branch:
    both return with the slots unset. *)
Definition __init__ (P : platform) (cache : gmap string instance)
    (args : list pyval) (kw : kwargs) : result instance :=
  match args with
  | [_; _; _] | [_; _; _; _] => initialised (call_fromrgba args kw)
  | [value] =>
      match value with
      | PList _ | PTuple _ | PColor _ =>
          let* items := py_iter value in
          initialised (call_fromrgba items [])
      | PStr s =>
          if startswith_hash s then initialised (call_fromhex s kw)
          else if String.eqb s "random" then
            initialised
              (call_fromrgba
                 (map (fun i => PInt (random_randint P i)) (seq 0 3)) [])
          else initialised (call_fromname cache s kw)
      | PInt _ | PBool _ =>
          match as_int value with
          | Some v =>
              let r := Z.shiftr (Z.land v 0xff0000) 16 in
              let g := Z.shiftr (Z.land v 0xff00) 8 in
              let b := Z.shiftr (Z.land v 0xff) 0 in
              initialised (call_fromrgba [PInt r; PInt g; PInt b] kw)
          | None => Ok None
          end
      | _ => Ok None
      end
  | [] => Raise TypeError     (* raise NotImplemented: not an exception *)
  | _ => Ok None
  end.

(** [Color.from_rgba(red, green, blue, alpha)] *)
Definition from_rgba (red green blue alpha : pyval) : result Color :=
  _fromrgba red green blue alpha.

(** ** Indexing *)

(** [range(start, stop, step)] for a non-zero step. *)
Definition py_range (start stop step : Z) : list Z :=
  let count :=
    if 0 <? step then
      if start <? stop then (stop - start - 1) / step + 1 else 0
    else
      if stop <? start then (start - stop - 1) / (- step) + 1 else 0 in
  map (fun i => start + Z.of_nat i * step) (seq 0 (Z.to_nat count)).

(** The indices selected by [slice(start, stop, step)] in a sequence of
    length [len]. *)
Definition slice_indices (len : Z) (start stop step : option Z)
    : result (list Z) :=
  let step := default 1 step in
  if step =? 0 then Raise ValueError
  else
    let lower := if step <? 0 then -1 else 0 in
    let upper := if step <? 0 then len - 1 else len in
    let clip (bound : option Z) (absent : Z) :=
      match bound with
      | None => absent
      | Some i => if i <? 0 then Z.max (i + len) lower else Z.min i upper
      end in
    let start := clip start (if step <? 0 then upper else lower) in
    let stop := clip stop (if step <? 0 then lower else upper) in
    Ok (py_range start stop step).

(** [t[key]] for a tuple [t] and a key that is not an int. *)
Definition tuple_slice {A} (t : list A) (key : pyval) : result (list A) :=
  match key with
  | PSlice start stop step =>
      let* idx := slice_indices (Z.of_nat (length t)) start stop step in
      Ok (omap (fun i => t !! Z.to_nat i) idx)
  | _ => Raise TypeError
  end.

Definition _RANGE : list Z := [0; 1; 2; 3].

(** The [int] branch of [Color.__getitem__]. *)
Definition getitem_int (self : Color) (key : Z) : result Z :=
  let* key :=
    if key <? 0 then
      let key := key + 4 in
      if key <? 0 then Raise IndexError else Ok key
    else Ok key in
  if key =? 0 then Ok (_red self)
  else if key =? 1 then Ok (_green self)
  else if key =? 2 then Ok (_blue self)
  else if key =? 3 then Ok (_alpha self)
  else Raise IndexError.

Definition __getitem__ (self : Color) (key : pyval) : result pyval :=
  match as_int key with
  | Some k => let* v := getitem_int self k in Ok (PInt v)
  | None =>
      let* idx := tuple_slice _RANGE key in
      let* vs := mapM (getitem_int self) idx in
      Ok (PTuple (map PInt vs))
  end.

(** ** Derived views *)

Definition rgba (self : Color) : result pyval :=
  Ok (PTuple (map PInt (Color_iter self))).

Definition rgb (self : Color) : result pyval :=
  __getitem__ self (PSlice None (Some 3) None).

(** [x / 255.] for a component [x]. *)
Definition component_f (x : Z) : result pyval :=
  let* f := float_of_int x in
  let* q := float_truediv f 255%float in
  Ok (PFloat q).

Definition rgbf (self : Color) : result pyval :=
  let* idx := tuple_slice _RANGE (PSlice None (Some 3) None) in
  let* vs := mapM (getitem_int self) idx in
  let* fs := mapM component_f vs in
  Ok (PTuple fs).

Definition rgbaf (self : Color) : result pyval :=
  let* fs := mapM component_f (Color_iter self) in
  Ok (PTuple fs).

Definition rgbau (self : Color) : result Z :=
  let* c0 := getitem_int self 0 in
  let* c1 := getitem_int self 1 in
  let* c2 := getitem_int self 2 in
  let* c3 := getitem_int self 3 in
  Ok (Z.shiftl c0 24 + Z.shiftl c1 16 + Z.shiftl c2 8 + c3).

Definition rgbu (self : Color) : result Z :=
  let* c0 := getitem_int self 0 in
  let* c1 := getitem_int self 1 in
  let* c2 := getitem_int self 2 in
  Ok (Z.shiftl c0 16 + Z.shiftl c1 8 + c2).

(** [math.acos] and [math.sqrt]: a NaN from a number, or an infinity from a
    finite number, is a domain error. *)
Definition math_1 (f : float -> float) (x : float) : result float :=
  let r := f x in
  if is_nan r && negb (is_nan x) then Raise ValueError
  else if is_infinity r && is_finite x then Raise ValueError
  else Ok r.

(** [v ** 2] on a float: CPython settles the special values and hands the
    rest to the C library. *)
Definition float_pow_2 (P : platform) (v : float) : result float :=
  if is_nan v then Ok v
  else if is_infinity v then Ok (abs v)
  else if PrimFloat.eqb v 0%float then Ok 0%float
  else
    let v := if PrimFloat.ltb v 0%float then PrimFloat.opp v else v in
    if PrimFloat.eqb v 1%float then Ok 1%float
    else
      let x := libm_pow P v 2%float in
      if is_infinity x then Raise OverflowError else Ok x.

Definition hsia (P : platform) (self : Color) : result pyval :=
  let R := _red self in
  let G := _green self in
  let B := _blue self in
  let a := _alpha self in
  let* Int := int_truediv (R + G + B) 3 in
  let* m := float_of_int (Z.min R (Z.min G B)) in
  let* q := float_truediv m Int in
  let Sat := PrimFloat.sub 1%float q in
  let* r := int_truediv R 255 in
  let* g := int_truediv G 255 in
  let* b := int_truediv B 255 in
  let* x := float_truediv
              (PrimFloat.add (PrimFloat.sub r g) (PrimFloat.sub r b))
              2%float in
  let* h_numer := math_1 (libm_acos P) x in
  let* p := float_pow_2 P (PrimFloat.sub r b) in
  let* h_denom :=
    math_1 PrimFloat.sqrt
      (PrimFloat.add p
         (PrimFloat.mul (PrimFloat.sub r b) (PrimFloat.sub g b))) in
  let* h := float_truediv h_numer h_denom in
  Ok (PTuple [PFloat h; PFloat Sat; PFloat Int; PInt a]).

Definition hsi (P : platform) (self : Color) : result pyval :=
  let* t := hsia P self in
  match t with
  | PTuple l =>
      let* l' := tuple_slice l (PSlice None (Some (-1)) None) in
      Ok (PTuple l')
  | _ => Raise TypeError
  end.

(** [x / 255] for an item [x] of an [hsia] tuple. *)
Definition item_f (x : pyval) : result pyval :=
  match x with
  | PFloat f => let* q := float_truediv f 255%float in Ok (PFloat q)
  | PInt z => let* q := int_truediv z 255 in Ok (PFloat q)
  | _ => Raise TypeError
  end.

Definition hsiaf (P : platform) (self : Color) : result pyval :=
  let* t := hsia P self in
  let* l := py_iter t in
  let* fs := mapM item_f l in
  Ok (PTuple fs).

Definition hsif (P : platform) (self : Color) : result pyval :=
  let* t := hsi P self in
  let* l := py_iter t in
  let* fs := mapM item_f l in
  Ok (PTuple fs).

(** ** Copy, comparison, attributes *)

Definition is_None (v : pyval) : bool :=
  match v with PNone => true | _ => false end.

(** Objects live in a store and are named by their address; an address
    past the end holds no object yet.  Calling the class allocates the next
    address and runs [__init__] on it. *)
Abbreviation store := (list instance).

Definition new_Color (P : platform) (cache : gmap string instance)
    (st : store) (args : list pyval) (kw : kwargs) : result (store * nat) :=
  let* obj := __init__ P cache args kw in
  Ok ((st ++ [obj])%list, length st).

(** [R, G, B, A = self]: the four slots of the object at [self]. *)
Definition unpack_self (st : store) (self : nat) : result Color :=
  match st !! self with
  | Some (Some c) => Ok c
  | _ => Raise AttributeError
  end.

(** [self.copy(red, green, blue, alpha, **kwds)]; a parameter that is not
    given is [None].  The result is the store after the call and the address
    of the object returned. *)
Definition copy (P : platform) (cache : gmap string instance) (st : store)
    (self : nat) (red green blue alpha : pyval) (kwds : kwargs)
    : result (store * nat) :=
  let* c := unpack_self st self in
  let R := if is_None red then PInt (_red c) else red in
  let G := if is_None green then PInt (_green c) else green in
  let B := if is_None blue then PInt (_blue c) else blue in
  let A := if is_None alpha then PInt (_alpha c) else alpha in
  match kwds with
  | _ :: _ => Raise NotImplementedError
  | [] => new_Color P cache st [R; G; B; A] []
  end.

(** [other._red] and its siblings: only a [Color] whose slots are set has
    them. *)
Definition read_slot (other : pyval) (field : Color -> Z) : result Z :=
  match other with
  | PColor (Some c) => Ok (field c)
  | _ => Raise AttributeError
  end.

Definition Attribute_or_Type (e : exn) : bool :=
  match e with
  | AttributeError | TypeError => true
  | _ => false
  end.

Definition __eq__ (self : Color) (other : pyval) : result bool :=
  try_except
    (let* r := read_slot other _red in
     if negb (_red self =? r) then Ok false else
     let* g := read_slot other _green in
     if negb (_green self =? g) then Ok false else
     let* b := read_slot other _blue in
     if negb (_blue self =? b) then Ok false else
     let* a := read_slot other _alpha in
     Ok (_alpha self =? a))
    Attribute_or_Type
    (let* n := py_len other in
     if n =? 4 then
       let* ys := py_iter other in
       all_eq (Color_iter self) ys
     else if n =? 3 then
       if _alpha self =? 255 then
         let* ys := py_iter other in
         all_eq (Color_iter self) ys
       else Ok false
     else Ok false).

(** A method or property that starts by reading the slots of [self]. *)
Definition with_slots {A} (self : instance) (f : Color -> result A)
    : result A :=
  match self with
  | Some c => f c
  | None => Raise AttributeError
  end.

Definition int_value (r : result Z) : result pyval :=
  let* z := r in Ok (PInt z).

(** The slots, the properties and the constants of class [Color], by name. *)
Definition Color_data (P : platform)
    : list (string * (instance -> result pyval)) :=
  [ ("_red", fun self => with_slots self (fun c => Ok (PInt (_red c))));
    ("_green", fun self => with_slots self (fun c => Ok (PInt (_green c))));
    ("_blue", fun self => with_slots self (fun c => Ok (PInt (_blue c))));
    ("_alpha", fun self => with_slots self (fun c => Ok (PInt (_alpha c))));
    ("__slots__", fun _ => Ok (PList [PStr "_red"; PStr "_green";
                                      PStr "_blue"; PStr "_alpha"]));
    ("_RANGE", fun _ => Ok (PTuple (map PInt _RANGE)));
    ("red", fun self => with_slots self (fun c => Ok (PInt (_red c))));
    ("green", fun self => with_slots self (fun c => Ok (PInt (_green c))));
    ("blue", fun self => with_slots self (fun c => Ok (PInt (_blue c))));
    ("alpha", fun self => with_slots self (fun c => Ok (PInt (_alpha c))));
    ("hue", fun _ => Ok PNotImplemented);
    ("saturation", fun _ => Ok PNotImplemented);
    ("intensity", fun _ => Ok PNotImplemented);
    ("rgba", fun self => with_slots self rgba);
    ("rgb", fun self => with_slots self rgb);
    ("rgbf", fun self => with_slots self rgbf);
    ("rgbaf", fun self => with_slots self rgbaf);
    ("rgbau", fun self => with_slots self (fun c => int_value (rgbau c)));
    ("rgbu", fun self => with_slots self (fun c => int_value (rgbu c)));
    ("hsi", fun self => with_slots self (hsi P));
    ("hsia", fun self => with_slots self (hsia P));
    ("hsiaf", fun self => with_slots self (hsiaf P));
    ("hsif", fun self => with_slots self (hsif P)) ].

(** The other names an attribute lookup on a [Color] finds: the methods and
    the registry of the class, and what [object] provides to a class with
    [__slots__]. *)
Definition Color_other_names : list string :=
  [ "_CACHE"; "from_rgba"; "__init__"; "_fromrgba"; "_fromhex"; "_fromname";
    "copy"; "__repr__"; "__len__"; "__eq__"; "__iter__"; "__getitem__";
    "__hash__"; "__class__"; "__delattr__"; "__dir__"; "__doc__";
    "__format__"; "__ge__"; "__getattribute__"; "__gt__";
    "__init_subclass__"; "__le__"; "__lt__"; "__module__"; "__ne__";
    "__new__"; "__reduce__"; "__reduce_ex__"; "__setattr__"; "__sizeof__";
    "__str__"; "__subclasshook__" ].

Fixpoint assoc {A} (name : string) (l : list (string * A)) : option A :=
  match l with
  | [] => None
  | (k, v) :: t => if String.eqb k name then Some v else assoc name t
  end.

(** [self.name] on a [Color] object. *)
Definition Color_getattr (P : platform) (self : instance) (name : string)
    : result pyval :=
  match assoc name (Color_data P) with
  | Some f => f self
  | None =>
      if existsb (String.eqb name) Color_other_names
      then Ok (PObject name)
      else Raise AttributeError
  end.

(** [hash(self.u_rgba)] *)
Definition __hash__ (P : platform) (self : Color) : result Z :=
  let* v := Color_getattr P (Some self) "u_rgba" in
  builtin_hash P v.

(** [hash] of an int, as CPython computes it on a 64-bit build: the
    value modulo 2^61 - 1 with the sign kept, and -2 in place of -1. *)
Definition hash_int (z : Z) : Z :=
  let h := Z.sgn z * (Z.abs z mod (2 ^ 61 - 1)) in
  if h =? -1 then -2 else h.

(** ** The registry of names *)

Definition HTML_COLORS : list (string * string) :=
  [ ("white", "#ffffff"); ("silver", "#c0c0c0"); ("gray", "#808080");
    ("black", "#000000"); ("red", "#ff0000"); ("maroon", "#800000");
    ("yellow", "#ffff00"); ("olive", "#808000"); ("lime", "#00ff00");
    ("green", "#008000"); ("aqua", "#00ffff"); ("teal", "#008080");
    ("blue", "#0000ff"); ("navy", "#000080"); ("fuschia", "#ff00ff");
    ("purple", "#800080"); ("transparent", "#ffffff00"); ("null", "#00000000") ].

Definition COLOR_NAMES : list (string * string) :=
  [ ("aliceblue", "#F0F8FF"); ("antiquewhite", "#FAEBD7"); ("aqua", "#00FFFF");
    ("aquamarine", "#7FFFD4"); ("azure", "#F0FFFF"); ("beige", "#F5F5DC");
    ("bisque", "#FFE4C4"); ("black", "#000000"); ("blanchedalmond", "#FFEBCD");
    ("blue", "#0000FF"); ("blueviolet", "#8A2BE2"); ("brown", "#A52A2A");
    ("burlywood", "#DEB887"); ("cadetblue", "#5F9EA0");
    ("chartreuse", "#7FFF00"); ("chocolate", "#D2691E"); ("coral", "#FF7F50");
    ("cornflowerblue", "#6495ED"); ("cornsilk", "#FFF8DC");
    ("crimson", "#DC143C"); ("cyan", "#00FFFF"); ("darkblue", "#00008B");
    ("darkcyan", "#008B8B"); ("darkgoldenrod", "#B8860B");
    ("darkgray", "#A9A9A9"); ("darkgreen", "#006400"); ("darkgrey", "#A9A9A9");
    ("darkkhaki", "#BDB76B"); ("darkmagenta", "#8B008B");
    ("darkolivegreen", "#556B2F"); ("darkorange", "#FF8C00");
    ("darkorchid", "#9932CC"); ("darkred", "#8B0000");
    ("darksalmon", "#E9967A"); ("darkseagreen", "#8FBC8F");
    ("darkslateblue", "#483D8B"); ("darkslategray", "#2F4F4F");
    ("darkslategrey", "#2F4F4F"); ("darkturquoise", "#00CED1");
    ("darkviolet", "#9400D3"); ("deeppink", "#FF1493");
    ("deepskyblue", "#00BFFF"); ("dimgray", "#696969"); ("dimgrey", "#696969");
    ("dodgerblue", "#1E90FF"); ("firebrick", "#B22222");
    ("floralwhite", "#FFFAF0"); ("forestgreen", "#228B22");
    ("fuchsia", "#FF00FF"); ("gainsboro", "#DCDCDC");
    ("ghostwhite", "#F8F8FF"); ("gold", "#FFD700"); ("goldenrod", "#DAA520");
    ("gray", "#808080"); ("green", "#008000"); ("greenyellow", "#ADFF2F");
    ("grey", "#808080"); ("honeydew", "#F0FFF0"); ("hotpink", "#FF69B4");
    ("indianred", "#CD5C5C"); ("indigo", "#4B0082"); ("ivory", "#FFFFF0");
    ("khaki", "#F0E68C"); ("lavender", "#E6E6FA");
    ("lavenderblush", "#FFF0F5"); ("lawngreen", "#7CFC00");
    ("lemonchiffon", "#FFFACD"); ("lightblue", "#ADD8E6");
    ("lightcoral", "#F08080"); ("lightcyan", "#E0FFFF");
    ("lightgoldenrodyellow", "#FAFAD2"); ("lightgray", "#D3D3D3");
    ("lightgreen", "#90EE90"); ("lightgrey", "#D3D3D3");
    ("lightpink", "#FFB6C1"); ("lightsalmon", "#FFA07A");
    ("lightseagreen", "#20B2AA"); ("lightskyblue", "#87CEFA");
    ("lightslategray", "#778899"); ("lightslategrey", "#778899");
    ("lightsteelblue", "#B0C4DE"); ("lightyellow", "#FFFFE0");
    ("lime", "#00FF00"); ("limegreen", "#32CD32"); ("linen", "#FAF0E6");
    ("magenta", "#FF00FF"); ("maroon", "#800000");
    ("mediumaquamarine", "#66CDAA"); ("mediumblue", "#0000CD");
    ("mediumorchid", "#BA55D3"); ("mediumpurple", "#9370DB");
    ("mediumseagreen", "#3CB371"); ("mediumslateblue", "#7B68EE");
    ("mediumspringgreen", "#00FA9A"); ("mediumturquoise", "#48D1CC");
    ("mediumvioletred", "#C71585"); ("midnightblue", "#191970");
    ("mintcream", "#F5FFFA"); ("mistyrose", "#FFE4E1");
    ("moccasin", "#FFE4B5"); ("navajowhite", "#FFDEAD"); ("navy", "#000080");
    ("oldlace", "#FDF5E6"); ("olive", "#808000"); ("olivedrab", "#6B8E23");
    ("orange", "#FFA500"); ("orangered", "#FF4500"); ("orchid", "#DA70D6");
    ("palegoldenrod", "#EEE8AA"); ("palegreen", "#98FB98");
    ("paleturquoise", "#AFEEEE"); ("palevioletred", "#DB7093");
    ("papayawhip", "#FFEFD5"); ("peachpuff", "#FFDAB9"); ("peru", "#CD853F");
    ("pink", "#FFC0CB"); ("plum", "#DDA0DD"); ("powderblue", "#B0E0E6");
    ("purple", "#800080"); ("red", "#FF0000"); ("rosybrown", "#BC8F8F");
    ("royalblue", "#4169E1"); ("saddlebrown", "#8B4513");
    ("salmon", "#FA8072"); ("sandybrown", "#F4A460"); ("seagreen", "#2E8B57");
    ("seashell", "#FFF5EE"); ("sienna", "#A0522D"); ("silver", "#C0C0C0");
    ("skyblue", "#87CEEB"); ("slateblue", "#6A5ACD"); ("slategray", "#708090");
    ("slategrey", "#708090"); ("snow", "#FFFAFA"); ("springgreen", "#00FF7F");
    ("steelblue", "#4682B4"); ("tan", "#D2B48C"); ("teal", "#008080");
    ("thistle", "#D8BFD8"); ("tomato", "#FF6347"); ("turquoise", "#40E0D0");
    ("violet", "#EE82EE"); ("wheat", "#F5DEB3"); ("white", "#FFFFFF");
    ("whitesmoke", "#F5F5F5"); ("yellow", "#FFFF00");
    ("yellowgreen", "#9ACD32") ].

Fixpoint foldM {A B} (f : A -> B -> result A) (l : list B) (a : A)
    : result A :=
  match l with
  | [] => Ok a
  | x :: t => let* a' := f a x in foldM f t a'
  end.

(** [d.setdefault(k, v)] *)
Definition setdefault (d : gmap string instance) (k : string) (v : instance)
    : gmap string instance :=
  match d !! k with
  | Some _ => d
  | None => <[k := v]> d
  end.

(** The statements that fill [Color._CACHE] when the module is loaded: the
    HTML colors are built while the registry is empty and stored with
    [update], then each SVG name is added unless the name is there. *)
Definition load_registry (P : platform) : result (gmap string instance) :=
  let* html :=
    mapM (fun '(name, hex) =>
            let* c := __init__ P ∅ [PStr hex] [] in Ok (name, c))
         HTML_COLORS in
  let cache := fold_left (fun d '(name, c) => <[name := c]> d) html ∅ in
  foldM (fun d '(name, hex) =>
           let* c := __init__ P d [PStr hex] [] in
           Ok (setdefault d name c))
        COLOR_NAMES cache.

(** [Color._CACHE] once the module is loaded. *)
Definition _CACHE (P : platform) : gmap string instance :=
  match load_registry P with
  | Ok d => d
  | Raise _ => ∅
  end.

(** ** Module-level functions *)

Module base.

(** [Color( *args, **kwargs)] *)
Definition Color_ (P : platform) (args : list pyval) (kw : kwargs)
    : result instance :=
  __init__ P (_CACHE P) args kw.

(** [v.name].  The module reads [rgb] and [rgba] this way, which no value
    but a [Color] has. *)
Definition getattr (P : platform) (v : pyval) (name : string)
    : result pyval :=
  match v with
  | PColor self => Color_getattr P self name
  | _ => Raise AttributeError
  end.

Definition is_AttributeError (e : exn) : bool :=
  match e with AttributeError => true | _ => false end.

Definition rgb (P : platform) (color : pyval) : result pyval :=
  try_except (getattr P color "rgb") is_AttributeError
    (let* c := Color_ P [py_or color (PStr "black")] [] in
     getattr P (PColor c) "rgb").

Definition rgba (P : platform) (color : pyval) : result pyval :=
  try_except (getattr P color "rgba") is_AttributeError
    (let* c := Color_ P [py_or color (PStr "black")] [] in
     getattr P (PColor c) "rgba").

End base.

(** * Vocabulary of the statements *)

(** A platform to run the functions on.  Its [acos] and [pow] are stand-ins
    (a constant and a product); the statements below hold for every
    platform. *)
Definition sample_platform : platform :=
  {| libm_acos := fun _ => 0%float;
     libm_pow := fun x _ => PrimFloat.mul x x;
     random_randint := fun n => Z.of_nat n;
     builtin_hash := fun v =>
       match as_int v with
       | Some z => Ok (hash_int z)
       | None => Raise TypeError
       end |}.

(** The parameters after the first, bound from the keywords alone. *)
Definition bind_rest (rest : list (string * option pyval)) (kw : kwargs)
    : result (list pyval) :=
  bind_args rest [] kw.

Definition hex3 (a b c : ascii) : string :=
  String "#" (String a (String b (String c ""))).

Definition hex4 (a b c d : ascii) : string :=
  String "#" (String a (String b (String c (String d "")))).

Definition hex6 (a b c d e f : ascii) : string :=
  String "#" (String a (String b (String c (String d (String e
    (String f "")))))).

Definition hex8 (a b c d e f g h : ascii) : string :=
  String "#" (String a (String b (String c (String d (String e
    (String f (String g (String h "")))))))).

(** The hexadecimal digits and their values. *)
Definition hex_digits : list (ascii * Z) :=
  [ ("0", 0); ("1", 1); ("2", 2); ("3", 3); ("4", 4); ("5", 5); ("6", 6);
    ("7", 7); ("8", 8); ("9", 9);
    ("a", 10); ("b", 11); ("c", 12); ("d", 13); ("e", 14); ("f", 15);
    ("A", 10); ("B", 11); ("C", 12); ("D", 13); ("E", 14);
    ("F", 15) ]%char.

Definition hex_digit (c : ascii) (v : Z) : Prop := In (c, v) hex_digits.

Definition returns_int (r : result Z) (z : Z) : bool :=
  match r with
  | Ok x => x =? z
  | Raise _ => false
  end.

(** An override of [copy]: a given int, or [None] when it is left out. *)
Definition override (o : option Z) : pyval :=
  match o with
  | Some z => PInt z
  | None => PNone
  end.

Definition raises {A} (r : result A) : Prop := exists e, r = Raise e.

(** ** The property slot *)

Module colorproperty.

(** What [colorproperty.__init__] leaves in the closures of [fget], [fset]
    and [fdel]: the name, the attribute ['_' + name] and the default, which
    is [None] or a [Color] object. *)
Record t : Type := {
  name : string;
  attr : string;
  default : pyval
}.

(** The instance attributes of the object that owns the property.  The owner
    is a plain object: [getattr], [setattr], [hasattr] and [delattr] on it
    read and write this table, and its class has no attribute of the slot's
    name. *)
Abbreviation owner := (gmap string pyval).

(** [colorproperty(name, default)] *)
Definition __init__ (P : platform) (name : string) (default : pyval)
    : result t :=
  let* d :=
    if is_None default then Ok PNone
    else let* c := base.Color_ P [default] [] in Ok (PColor c) in
  Ok {| name := name; attr := String "_" name; default := d |}.

(** [getattr(self, attr, default)] *)
Definition fget (p : t) (self : owner) : pyval :=
  match self !! attr p with
  | Some v => v
  | None => default p
  end.

Definition fset (P : platform) (p : t) (self : owner) (value : pyval)
    : result owner :=
  if is_None value then Ok (<[attr p := default p]> self)
  else
    match value with
    | PColor _ => Ok (<[attr p := value]> self)
    | _ =>
        let* c := base.Color_ P [value] [] in
        Ok (<[attr p := PColor c]> self)
    end.

Definition fdel (p : t) (self : owner) : result owner :=
  match self !! attr p with
  | Some _ => Ok (delete (attr p) self)
  | None => Raise AttributeError
  end.

End colorproperty.

(** ** More vocabulary *)

(** All four components are bytes. *)
Definition in_range (c : Color) : Prop :=
  0 <= _red c <= 255 /\ 0 <= _green c <= 255 /\
  0 <= _blue c <= 255 /\ 0 <= _alpha c <= 255.

Definition in_rangeb (c : Color) : bool :=
  forallb (fun x => (0 <=? x) && (x <=? 255)) (Color_iter c).

(** A float between 0.0 and 1.0. *)
Definition unit_float (f : float) : Prop :=
  PrimFloat.leb 0%float f = true /\ PrimFloat.leb f 1%float = true.

(** The 256 code points a character ranges over. *)
Definition all_ascii : list ascii := map ascii_of_nat (seq 0 256).

(** Names and hex codes of both tables, in the order they are loaded. *)
Definition seed_table : list (string * string) :=
  (HTML_COLORS ++ COLOR_NAMES)%list.

Definition Color_eqb (c1 c2 : Color) : bool :=
  (_red c1 =? _red c2) && (_green c1 =? _green c2)
  && (_blue c1 =? _blue c2) && (_alpha c1 =? _alpha c2).

(** What a component parsed from two characters of a hex string can be. *)
Definition hex_component (v : Z) : Prop := -15 <= v <= 255.

(** * Properties *)

(** ** Indexing *)

Lemma getitem_PInt (c : Color) (k : Z) :
  __getitem__ c (PInt k) = int_value (getitem_int c k).
Proof. reflexivity. Qed.

Lemma getitem_int_low (c : Color) (k : Z) :
  k < -4 -> getitem_int c k = Raise IndexError.
Proof.
  intros Hk. unfold getitem_int.
  destruct (Z.ltb_spec k 0); [|lia].
  destruct (Z.ltb_spec (k + 4) 0); [reflexivity|lia].
Qed.

Lemma getitem_int_high (c : Color) (k : Z) :
  3 < k -> getitem_int c k = Raise IndexError.
Proof.
  intros Hk. unfold getitem_int.
  destruct (Z.ltb_spec k 0); [lia|]. simpl.
  destruct (Z.eqb_spec k 0); [lia|]. destruct (Z.eqb_spec k 1); [lia|].
  destruct (Z.eqb_spec k 2); [lia|]. destruct (Z.eqb_spec k 3); [lia|].
  reflexivity.
Qed.

(** C10: integer indices 0..3 read red, green, blue and alpha, the negative
    indices -4..-1 wrap to the same four components, and every other integer
    index raises IndexError. *)
Theorem getitem_index_total (c : Color) (k : Z) :
  (k = 0 \/ k = -4 -> __getitem__ c (PInt k) = Ok (PInt (_red c))) /\
  (k = 1 \/ k = -3 -> __getitem__ c (PInt k) = Ok (PInt (_green c))) /\
  (k = 2 \/ k = -2 -> __getitem__ c (PInt k) = Ok (PInt (_blue c))) /\
  (k = 3 \/ k = -1 -> __getitem__ c (PInt k) = Ok (PInt (_alpha c))) /\
  (k < -4 \/ 3 < k -> __getitem__ c (PInt k) = Raise IndexError).
Proof.
  repeat split; intros [H|H]; subst; try reflexivity;
    rewrite getitem_PInt;
    [rewrite getitem_int_low by assumption
    |rewrite getitem_int_high by assumption]; reflexivity.
Qed.

Lemma getitem_index_total_witness :
  __getitem__ (mkColor 10 20 30 40) (PInt (-1)) = Ok (PInt 40) /\
  __getitem__ (mkColor 10 20 30 40) (PInt 0) = Ok (PInt 10) /\
  __getitem__ (mkColor 10 20 30 40) (PInt 4) = Raise IndexError /\
  __getitem__ (mkColor 10 20 30 40) (PInt (-5)) = Raise IndexError.
Proof.
  split; [|split; [|split]].
  - apply (getitem_index_total (mkColor 10 20 30 40) (-1)). right. reflexivity.
  - apply (getitem_index_total (mkColor 10 20 30 40) 0). left. reflexivity.
  - apply (getitem_index_total (mkColor 10 20 30 40) 4). right. lia.
  - apply (getitem_index_total (mkColor 10 20 30 40) (-5)). left. lia.
Defined.

(** ** Comparison *)

Lemma eqb_decide (x y : Z) : (x =? y) = bool_decide (x = y).
Proof.
  destruct (Z.eqb_spec x y); [rewrite bool_decide_eq_true_2
                             |rewrite bool_decide_eq_false_2]; auto.
Qed.

Lemma andb_decide (A B : Prop) `{Decision A, Decision B} :
  bool_decide A && bool_decide B = bool_decide (A /\ B).
Proof. repeat case_bool_decide; simpl; tauto. Qed.

Lemma eq_four_items (c : Color) (x0 x1 x2 x3 : Z) :
  all_eq (Color_iter c) [PInt x0; PInt x1; PInt x2; PInt x3] =
  Ok (bool_decide (_red c = x0 /\ _green c = x1 /\ _blue c = x2
                   /\ _alpha c = x3)).
Proof.
  simpl. rewrite !eqb_decide.
  repeat case_bool_decide; simpl; try reflexivity; tauto.
Qed.

Lemma eq_three_items (c : Color) (x0 x1 x2 : Z) :
  all_eq (Color_iter c) [PInt x0; PInt x1; PInt x2] =
  Ok (bool_decide (_red c = x0 /\ _green c = x1 /\ _blue c = x2)).
Proof.
  simpl. rewrite !eqb_decide.
  repeat case_bool_decide; simpl; try reflexivity; tauto.
Qed.

(** C6: a Color equals a 4-element tuple or list of ints exactly when the
    four components match, and a 3-element one exactly when its alpha is 255
    and the first three components match; so Color(10,20,30,255) equals
    (10,20,30) and Color(10,20,30,128) does not. *)
Theorem eq_arity_tolerant (c : Color) (x0 x1 x2 x3 : Z) :
  __eq__ c (PTuple [PInt x0; PInt x1; PInt x2; PInt x3]) =
    Ok (bool_decide (_red c = x0 /\ _green c = x1 /\ _blue c = x2
                     /\ _alpha c = x3)) /\
  __eq__ c (PList [PInt x0; PInt x1; PInt x2; PInt x3]) =
    Ok (bool_decide (_red c = x0 /\ _green c = x1 /\ _blue c = x2
                     /\ _alpha c = x3)) /\
  __eq__ c (PTuple [PInt x0; PInt x1; PInt x2]) =
    Ok (bool_decide (_alpha c = 255 /\ _red c = x0 /\ _green c = x1
                     /\ _blue c = x2)) /\
  __eq__ c (PList [PInt x0; PInt x1; PInt x2]) =
    Ok (bool_decide (_alpha c = 255 /\ _red c = x0 /\ _green c = x1
                     /\ _blue c = x2)) /\
  __eq__ (mkColor 10 20 30 255) (PTuple [PInt 10; PInt 20; PInt 30])
    = Ok true /\
  __eq__ (mkColor 10 20 30 128) (PTuple [PInt 10; PInt 20; PInt 30])
    = Ok false.
Proof.
  assert (H3 : forall ys, ys = [PInt x0; PInt x1; PInt x2] ->
            (if _alpha c =? 255 then all_eq (Color_iter c) ys else Ok false)
            = Ok (bool_decide (_alpha c = 255 /\ _red c = x0 /\ _green c = x1
                               /\ _blue c = x2))).
  { intros ys ->. rewrite eq_three_items, eqb_decide.
    repeat case_bool_decide; try reflexivity; tauto. }
  repeat split; try reflexivity.
  - apply eq_four_items.
  - apply eq_four_items.
  - apply (H3 _ eq_refl).
  - apply (H3 _ eq_refl).
Qed.

(** ** Hashing *)

Lemma no_u_rgba (P : platform) (self : instance) :
  Color_getattr P self "u_rgba" = Raise AttributeError.
Proof. reflexivity. Qed.

Lemma rgbau_attribute (P : platform) (c : Color) :
  Color_getattr P (Some c) "rgbau" =
  Ok (PInt (Z.shiftl (_red c) 24 + Z.shiftl (_green c) 16
            + Z.shiftl (_blue c) 8 + _alpha c)).
Proof. reflexivity. Qed.

(** C3: [__hash__] reads the attribute [u_rgba]; the class defines the
    packed word under the name [rgbau], so hashing a Color raises
    AttributeError on every platform and for every Color. *)
Theorem hash_raises (P : platform) (c : Color) :
  __hash__ P c = Raise AttributeError.
Proof. unfold __hash__. rewrite no_u_rgba. reflexivity. Qed.

(** ** The dispatcher *)

(** C2: with two positional arguments, with five or more, and with one
    argument of a type the dispatcher does not list ([None], a float),
    [__init__] returns without raising and leaves the slots unset; only the
    call without arguments raises. *)
Theorem init_unsupported_shape_returns (P : platform)
    (cache : gmap string instance) (kw : kwargs) (a b c d e : pyval)
    (rest : list pyval) (f : float) :
  __init__ P cache [a; b] kw = Ok None /\
  __init__ P cache (a :: b :: c :: d :: e :: rest) kw = Ok None /\
  __init__ P cache [PNone] kw = Ok None /\
  __init__ P cache [PFloat f] kw = Ok None /\
  __init__ P cache [] kw = Raise TypeError.
Proof. repeat split. Qed.

(** ** Hexadecimal strings *)

Lemma bind_args_one (p : string * option pyval)
    (rest : list (string * option pyval)) (x : pyval) (kw : kwargs) :
  bind_args (p :: rest) [x] kw =
  let* vs := bind_rest rest kw in Ok (x :: vs).
Proof.
  unfold bind_rest, bind_args. simpl.
  destruct (forallb _ kw); [|reflexivity].
  match goal with |- context [mapM ?f ?l] => destruct (mapM f l) end;
    reflexivity.
Qed.

(** C5: a 3-digit hex string parses as the 6-digit string with each digit
    doubled and a 4-digit one as the 8-digit string with each digit doubled,
    whatever the characters and the alpha are; "#abc" and "#aabbcc" both give
    (170, 187, 204, 255), "#abcd" and "#aabbccdd" both (170, 187, 204, 221). *)
Theorem hex_expansion (P : platform) (cache : gmap string instance)
    (kw : kwargs) (alpha : pyval) (a b c d : ascii) :
  _fromhex (hex3 a b c) alpha = _fromhex (hex6 a a b b c c) alpha /\
  _fromhex (hex4 a b c d) alpha = _fromhex (hex8 a a b b c c d d) alpha /\
  __init__ P cache [PStr (hex3 a b c)] kw =
    __init__ P cache [PStr (hex6 a a b b c c)] kw /\
  __init__ P cache [PStr (hex4 a b c d)] kw =
    __init__ P cache [PStr (hex8 a a b b c c d d)] kw /\
  __init__ P cache [PStr "#abc"] [] = Ok (Some (mkColor 170 187 204 255)) /\
  __init__ P cache [PStr "#aabbcc"] [] = Ok (Some (mkColor 170 187 204 255)) /\
  __init__ P cache [PStr "#abcd"] [] = Ok (Some (mkColor 170 187 204 221)) /\
  __init__ P cache [PStr "#aabbccdd"] [] =
    Ok (Some (mkColor 170 187 204 221)).
Proof.
  assert (H3 : forall al, _fromhex (hex3 a b c) al
                          = _fromhex (hex6 a a b b c c) al)
    by reflexivity.
  assert (H4 : forall al, _fromhex (hex4 a b c d) al
                          = _fromhex (hex8 a a b b c c d d) al)
    by reflexivity.
  split; [apply H3|]. split; [apply H4|].
  split.
  { unfold __init__, call_fromhex. simpl startswith_hash. cbv iota.
    rewrite !bind_args_one. destruct (bind_rest _ kw) as [[|al [|? ?]]|];
      reflexivity. }
  split.
  { unfold __init__, call_fromhex. simpl startswith_hash. cbv iota.
    rewrite !bind_args_one. destruct (bind_rest _ kw) as [[|al [|? ?]]|];
      reflexivity. }
  repeat split; vm_compute; reflexivity.
Qed.

Lemma returns_int_true (r : result Z) (z : Z) :
  returns_int r z = true -> r = Ok z.
Proof.
  destruct r as [x|e]; simpl; [|discriminate].
  intros H. apply Z.eqb_eq in H. congruence.
Qed.

Lemma int_of_hex_pair (c1 c2 : ascii) (v1 v2 : Z) :
  hex_digit c1 v1 -> hex_digit c2 v2 ->
  int_of_string (String c1 (String c2 "")) 16 = Ok (16 * v1 + v2).
Proof.
  intros H1 H2. apply returns_int_true.
  assert (Hall : forallb (fun p1 => forallb (fun p2 =>
            returns_int (int_of_string (String (fst p1) (String (fst p2) "")) 16)
                        (16 * snd p1 + snd p2)) hex_digits) hex_digits = true)
    by (vm_compute; reflexivity).
  rewrite forallb_forall in Hall. specialize (Hall _ H1).
  rewrite forallb_forall in Hall. exact (Hall _ H2).
Qed.

Lemma fromhex_six (c1 c2 c3 c4 c5 c6 : ascii) (alpha : pyval) :
  _fromhex (hex6 c1 c2 c3 c4 c5 c6) alpha =
  let* r := int_of_string (String c1 (String c2 "")) 16 in
  let* g := int_of_string (String c3 (String c4 "")) 16 in
  let* b := int_of_string (String c5 (String c6 "")) 16 in
  _fromrgba (PInt r) (PInt g) (PInt b) alpha.
Proof. reflexivity. Qed.

Lemma fromhex_eight (c1 c2 c3 c4 c5 c6 c7 c8 : ascii) (alpha : pyval) :
  _fromhex (hex8 c1 c2 c3 c4 c5 c6 c7 c8) alpha =
  let* r := int_of_string (String c1 (String c2 "")) 16 in
  let* g := int_of_string (String c3 (String c4 "")) 16 in
  let* b := int_of_string (String c5 (String c6 "")) 16 in
  let* a := int_of_string (String c7 (String c8 "")) 16 in
  _fromrgba (PInt r) (PInt g) (PInt b) (PInt a).
Proof. reflexivity. Qed.

Lemma fromhex_bad_length (s : string) (alpha : pyval) :
  ~ In (String.length (drop_first s)) [3; 4; 6; 8]%nat ->
  _fromhex s alpha = Raise ValueError.
Proof.
  intros Hn. unfold _fromhex, str_len.
  set (n := String.length (drop_first s)) in *.
  assert (n <> 3 /\ n <> 4 /\ n <> 6 /\ n <> 8)%nat as (N3 & N4 & N6 & N8)
    by (simpl in Hn; intuition congruence).
  destruct (Z.eqb_spec (Z.of_nat n) 3); [lia|].
  destruct (Z.eqb_spec (Z.of_nat n) 4); [lia|]. simpl. fold n.
  destruct (Z.eqb_spec (Z.of_nat n) 6); [lia|].
  destruct (Z.eqb_spec (Z.of_nat n) 8); [lia|]. reflexivity.
Qed.

(** C7: a string whose part after the first character has a length other
    than 3, 4, 6 or 8 raises ValueError; six hex digits give the three bytes
    with the alpha passed in, eight hex digits give four bytes, and three or
    four hex digits give the bytes of the doubled digits. *)
Theorem fromhex_lengths (c1 c2 c3 c4 c5 c6 c7 c8 : ascii)
    (v1 v2 v3 v4 v5 v6 v7 v8 : Z) (a : Z) (alpha : pyval) :
  hex_digit c1 v1 -> hex_digit c2 v2 -> hex_digit c3 v3 -> hex_digit c4 v4 ->
  hex_digit c5 v5 -> hex_digit c6 v6 -> hex_digit c7 v7 -> hex_digit c8 v8 ->
  (forall s, ~ In (String.length (drop_first s)) [3; 4; 6; 8]%nat ->
     _fromhex s alpha = Raise ValueError) /\
  _fromhex (hex6 c1 c2 c3 c4 c5 c6) (PInt a) =
    Ok (mkColor (16 * v1 + v2) (16 * v3 + v4) (16 * v5 + v6) a) /\
  _fromhex (hex8 c1 c2 c3 c4 c5 c6 c7 c8) alpha =
    Ok (mkColor (16 * v1 + v2) (16 * v3 + v4) (16 * v5 + v6)
          (16 * v7 + v8)) /\
  _fromhex (hex3 c1 c2 c3) (PInt a) =
    Ok (mkColor (16 * v1 + v1) (16 * v2 + v2) (16 * v3 + v3) a) /\
  _fromhex (hex4 c1 c2 c3 c4) alpha =
    Ok (mkColor (16 * v1 + v1) (16 * v2 + v2) (16 * v3 + v3)
          (16 * v4 + v4)).
Proof.
  intros H1 H2 H3 H4 H5 H6 H7 H8.
  split; [intros s; apply fromhex_bad_length|].
  split.
  { rewrite fromhex_six.
    rewrite (int_of_hex_pair _ _ _ _ H1 H2), (int_of_hex_pair _ _ _ _ H3 H4),
      (int_of_hex_pair _ _ _ _ H5 H6). reflexivity. }
  split.
  { rewrite fromhex_eight.
    rewrite (int_of_hex_pair _ _ _ _ H1 H2), (int_of_hex_pair _ _ _ _ H3 H4),
      (int_of_hex_pair _ _ _ _ H5 H6), (int_of_hex_pair _ _ _ _ H7 H8).
    reflexivity. }
  split.
  { change (_fromhex (hex3 c1 c2 c3) (PInt a))
      with (_fromhex (hex6 c1 c1 c2 c2 c3 c3) (PInt a)).
    rewrite fromhex_six.
    rewrite (int_of_hex_pair _ _ _ _ H1 H1), (int_of_hex_pair _ _ _ _ H2 H2),
      (int_of_hex_pair _ _ _ _ H3 H3). reflexivity. }
  change (_fromhex (hex4 c1 c2 c3 c4) alpha)
    with (_fromhex (hex8 c1 c1 c2 c2 c3 c3 c4 c4) alpha).
  rewrite fromhex_eight.
  rewrite (int_of_hex_pair _ _ _ _ H1 H1), (int_of_hex_pair _ _ _ _ H2 H2),
    (int_of_hex_pair _ _ _ _ H3 H3), (int_of_hex_pair _ _ _ _ H4 H4).
  reflexivity.
Qed.

Lemma fromhex_lengths_witness :
  _fromhex "#ff80" (PInt 7) = Ok (mkColor 255 255 136 0) /\
  _fromhex "#ff8000" (PInt 7) = Ok (mkColor 255 128 0 7) /\
  _fromhex "#ff80007F" (PInt 7) = Ok (mkColor 255 128 0 127) /\
  _fromhex "#ff800" (PInt 7) = Raise ValueError /\
  _fromhex "#" (PInt 7) = Raise ValueError.
Proof.
  destruct (fromhex_lengths "f" "f" "8" "0" "0" "0" "7" "F"
              15 15 8 0 0 0 7 15 7 (PInt 7))
    as (Hbad & H6 & H8 & _ & H4);
    try (unfold hex_digit; simpl; repeat (first [left; reflexivity | right])).
  split; [exact H4|]. split; [exact H6|]. split; [exact H8|].
  split; apply Hbad; simpl; intuition discriminate.
Defined.

(** ** Packed words *)

(** The byte of [w] that starts at bit [n], as the code extracts it. *)
Lemma byte_field (w n : Z) :
  0 <= n ->
  Z.shiftr (Z.land w (Z.shiftl 255 n)) n = (w / 2 ^ n) mod 256.
Proof.
  intros Hn. rewrite Z.shiftr_land, Z.shiftr_shiftl_l by assumption.
  rewrite Z.sub_diag, Z.shiftl_0_r.
  change 255 with (Z.ones 8). rewrite Z.land_ones by lia.
  rewrite Z.shiftr_div_pow2 by assumption. reflexivity.
Qed.

Lemma eq_refl_Color (c : Color) : __eq__ c (PColor (Some c)) = Ok true.
Proof.
  unfold __eq__. simpl. rewrite !Z.eqb_refl. reflexivity.
Qed.

Lemma init_components (P : platform) (cache : gmap string instance)
    (r g b a : Z) :
  __init__ P cache [PInt r; PInt g; PInt b; PInt a] [] =
  Ok (Some (mkColor r g b a)).
Proof. reflexivity. Qed.

Lemma init_packed (P : platform) (cache : gmap string instance) (w : Z) :
  __init__ P cache [PInt w] [] =
  Ok (Some (mkColor ((w / 2 ^ 16) mod 256) ((w / 2 ^ 8) mod 256)
              (w mod 256) 255)).
Proof.
  unfold __init__. simpl as_int. cbv iota.
  change 0xff0000 with (Z.shiftl 255 16). change 0xff00 with (Z.shiftl 255 8).
  change 0xff with (Z.shiftl 255 0).
  rewrite !byte_field by lia. rewrite Z.pow_0_r, Z.div_1_r. reflexivity.
Qed.

(** C4: for components in [0, 255] the 24-bit word of Color(r, g, b, 255)
    holds red in bits 16..23, green in bits 8..15 and blue in bits 0..7, and
    the Color built from that word is Color(r, g, b, 255) again and compares
    equal to it. *)
Theorem packed_round_trip (P : platform) (cache : gmap string instance)
    (r g b : Z) :
  0 <= r <= 255 -> 0 <= g <= 255 -> 0 <= b <= 255 ->
  exists (c : Color) (w : Z) (c' : Color),
    __init__ P cache [PInt r; PInt g; PInt b; PInt 255] [] = Ok (Some c) /\
    rgbu c = Ok w /\
    w = r * 2 ^ 16 + g * 2 ^ 8 + b /\
    __init__ P cache [PInt w] [] = Ok (Some c') /\
    c' = mkColor r g b 255 /\
    __eq__ c' (PColor (Some c)) = Ok true.
Proof.
  intros Hr Hg Hb.
  exists (mkColor r g b 255), (r * 2 ^ 16 + g * 2 ^ 8 + b), (mkColor r g b 255).
  split; [apply init_components|].
  split; [unfold rgbu; simpl; rewrite !Z.shiftl_mul_pow2 by lia; reflexivity|].
  split; [reflexivity|].
  split; [|split; [reflexivity|apply eq_refl_Color]].
  rewrite init_packed. change (2 ^ 16) with 65536. change (2 ^ 8) with 256.
  assert (E1 : ((r * 65536 + g * 256 + b) / 65536) mod 256 = r)
    by (Z.div_mod_to_equations; lia).
  assert (E2 : ((r * 65536 + g * 256 + b) / 256) mod 256 = g)
    by (Z.div_mod_to_equations; lia).
  assert (E3 : (r * 65536 + g * 256 + b) mod 256 = b)
    by (Z.div_mod_to_equations; lia).
  rewrite E1, E2, E3. reflexivity.
Qed.

Lemma packed_round_trip_witness :
  exists (c : Color) (w : Z) (c' : Color),
    __init__ sample_platform ∅ [PInt 10; PInt 20; PInt 30; PInt 255] []
      = Ok (Some c) /\
    rgbu c = Ok w /\
    w = 10 * 2 ^ 16 + 20 * 2 ^ 8 + 30 /\
    __init__ sample_platform ∅ [PInt w] [] = Ok (Some c') /\
    c' = mkColor 10 20 30 255 /\
    __eq__ c' (PColor (Some c)) = Ok true.
Proof.
  apply (packed_round_trip sample_platform ∅ 10 20 30); lia.
Defined.

(** ** Copies *)

Lemma copy_result (P : platform) (cache : gmap string instance) (st : store)
    (self : nat) (c : Color) (red green blue alpha : option Z) :
  st !! self = Some (Some c) ->
  copy P cache st self (override red) (override green) (override blue)
    (override alpha) [] =
  Ok ((st ++ [Some (mkColor (default (_red c) red) (default (_green c) green)
                     (default (_blue c) blue) (default (_alpha c) alpha))])%list,
      length st).
Proof.
  intros Hself. unfold copy, unpack_self. rewrite Hself.
  destruct red, green, blue, alpha; reflexivity.
Qed.

(** C8: [copy] with any subset of int overrides and no other keyword
    allocates a new object whose overridden components are the given values
    and whose other components are the receiver's; the receiver and every
    other object of the store are as before; without overrides the new
    object compares equal to the receiver. *)
Theorem copy_overrides (P : platform) (cache : gmap string instance)
    (st : store) (self : nat) (c : Color) (red green blue alpha : option Z) :
  st !! self = Some (Some c) ->
  exists (st' : store) (new : nat) (c' : Color),
    copy P cache st self (override red) (override green) (override blue)
      (override alpha) [] = Ok (st', new) /\
    st !! new = None /\
    st' !! new = Some (Some c') /\
    _red c' = default (_red c) red /\
    _green c' = default (_green c) green /\
    _blue c' = default (_blue c) blue /\
    _alpha c' = default (_alpha c) alpha /\
    st' !! self = Some (Some c) /\
    (forall a : nat, a <> new -> st' !! a = st !! a) /\
    (red = None -> green = None -> blue = None -> alpha = None ->
     c' = c /\ __eq__ c' (PColor (Some c)) = Ok true
     /\ __eq__ c (PColor (Some c')) = Ok true).
Proof.
  intros Hself.
  eexists _, _, _. split; [apply copy_result; exact Hself|].
  split; [apply lookup_ge_None_2; lia|].
  split; [apply list_lookup_middle; reflexivity|].
  do 4 (split; [reflexivity|]).
  split.
  { rewrite lookup_app_l; [exact Hself|].
    apply lookup_lt_Some in Hself. exact Hself. }
  split.
  { intros a Ha. destruct (Nat.lt_ge_cases a (length st)) as [Hlt|Hge].
    - apply lookup_app_l. exact Hlt.
    - rewrite (lookup_ge_None_2 st a Hge).
      apply lookup_ge_None_2. rewrite length_app. simpl. lia. }
  intros -> -> -> ->. simpl. destruct c as [r g b a].
  split; [reflexivity|]. split; apply eq_refl_Color.
Qed.

Lemma copy_overrides_witness :
  exists (st' : store) (new : nat) (c' : Color),
    copy sample_platform ∅ [Some (mkColor 255 255 255 255)] 0
      (override (Some 80)) (override None) (override None)
      (override (Some 128)) [] = Ok (st', new) /\
    [Some (mkColor 255 255 255 255)] !! new = None /\
    st' !! new = Some (Some c') /\
    _red c' = 80 /\ _green c' = 255 /\ _blue c' = 255 /\ _alpha c' = 128 /\
    st' !! 0%nat = Some (Some (mkColor 255 255 255 255)) /\
    (forall a : nat, a <> new ->
       st' !! a = [Some (mkColor 255 255 255 255)] !! a) /\
    (Some 80 = None -> @None Z = None -> @None Z = None -> Some 128 = None ->
     c' = mkColor 255 255 255 255
     /\ __eq__ c' (PColor (Some (mkColor 255 255 255 255))) = Ok true
     /\ __eq__ (mkColor 255 255 255 255) (PColor (Some c')) = Ok true).
Proof.
  apply (copy_overrides sample_platform ∅ [Some (mkColor 255 255 255 255)]
           0 (mkColor 255 255 255 255) (Some 80) None None (Some 128)).
  reflexivity.
Defined.

(** ** The registry and the module-level conversions *)

Lemma registry_loads (P : platform) : load_registry P = Ok (_CACHE P).
Proof.
  assert (H : match load_registry P with Ok _ => true | Raise _ => false end
              = true) by (vm_compute; reflexivity).
  unfold _CACHE. destruct (load_registry P); [reflexivity|discriminate].
Qed.

Lemma registry_examples (P : platform) :
  _CACHE P !! "black" = Some (Some (mkColor 0 0 0 255)) /\
  _CACHE P !! "transparent" = Some (Some (mkColor 255 255 255 0)) /\
  base.Color_ P [PStr "Transparent"] [] = Ok (Some (mkColor 255 255 255 0)) /\
  base.Color_ P [PStr "#FF0000FF"] [] = Ok (Some (mkColor 255 0 0 255)) /\
  base.Color_ P [PInt 0x00FF00] [] = Ok (Some (mkColor 0 255 0 255)) /\
  base.Color_ P [PStr "no such color"] [] = Raise KeyError.
Proof. repeat split; vm_compute; reflexivity. Qed.

Lemma getattr_falsy (P : platform) (v : pyval) (name : string) :
  truthy v = false -> base.getattr P v name = Raise AttributeError.
Proof. destruct v; simpl; intros H; try reflexivity; discriminate. Qed.

Lemma black_rgb (P : platform) :
  (let* c := base.Color_ P [PStr "black"] [] in
   base.getattr P (PColor c) "rgb") = Ok (PTuple [PInt 0; PInt 0; PInt 0]).
Proof. vm_compute. reflexivity. Qed.

Lemma black_rgba (P : platform) :
  (let* c := base.Color_ P [PStr "black"] [] in
   base.getattr P (PColor c) "rgba")
  = Ok (PTuple [PInt 0; PInt 0; PInt 0; PInt 255]).
Proof. vm_compute. reflexivity. Qed.

(** C9: for [None] and every other falsy value, [rgb] returns (0, 0, 0) and
    [rgba] returns (0, 0, 0, 255); for a Color they return its own
    components. *)
Theorem rgb_rgba_conversions (P : platform) (v : pyval) (c : Color) :
  truthy v = false ->
  base.rgb P v = Ok (PTuple [PInt 0; PInt 0; PInt 0]) /\
  base.rgba P v = Ok (PTuple [PInt 0; PInt 0; PInt 0; PInt 255]) /\
  base.rgb P PNone = Ok (PTuple [PInt 0; PInt 0; PInt 0]) /\
  base.rgba P PNone = Ok (PTuple [PInt 0; PInt 0; PInt 0; PInt 255]) /\
  base.rgb P (PColor (Some c)) =
    Ok (PTuple [PInt (_red c); PInt (_green c); PInt (_blue c)]) /\
  base.rgba P (PColor (Some c)) =
    Ok (PTuple [PInt (_red c); PInt (_green c); PInt (_blue c);
                PInt (_alpha c)]).
Proof.
  intros Hv.
  assert (Hrgb : forall u, truthy u = false ->
            base.rgb P u = Ok (PTuple [PInt 0; PInt 0; PInt 0])).
  { intros u Hu. unfold base.rgb. rewrite getattr_falsy by exact Hu.
    unfold try_except, base.is_AttributeError, py_or. rewrite Hu.
    apply black_rgb. }
  assert (Hrgba : forall u, truthy u = false ->
            base.rgba P u = Ok (PTuple [PInt 0; PInt 0; PInt 0; PInt 255])).
  { intros u Hu. unfold base.rgba. rewrite getattr_falsy by exact Hu.
    unfold try_except, base.is_AttributeError, py_or. rewrite Hu.
    apply black_rgba. }
  split; [apply Hrgb, Hv|]. split; [apply Hrgba, Hv|].
  split; [apply Hrgb; reflexivity|]. split; [apply Hrgba; reflexivity|].
  split; reflexivity.
Qed.

Lemma rgb_rgba_conversions_witness :
  base.rgb sample_platform (PInt 0) = Ok (PTuple [PInt 0; PInt 0; PInt 0]) /\
  base.rgba sample_platform (PInt 0)
    = Ok (PTuple [PInt 0; PInt 0; PInt 0; PInt 255]).
Proof.
  destruct (rgb_rgba_conversions sample_platform (PInt 0) (mkColor 1 2 3 4))
    as (H1 & H2 & _); [reflexivity|].
  split; [exact H1|exact H2].
Defined.

(** ** Hue, saturation, intensity *)

Lemma hsia_gray (P : platform) (a : Z) :
  hsia P (mkColor 128 128 128 a) =
  match math_1 (libm_acos P) 0%float with
  | Ok _ => Raise ZeroDivisionError
  | Raise e => Raise e
  end.
Proof. vm_compute. reflexivity. Qed.

(** C1: for the gray (128, 128, 128) the denominator of the hue is the
    square root of zero and the division is not guarded: [hsia] raises
    ZeroDivisionError (ValueError if the platform's acos(0) is not a finite
    number), and [hsi], which takes its items from [hsia], raises with it. *)
Theorem hsia_gray_raises (P : platform) (a : Z) :
  let e := if is_nan (libm_acos P 0%float)
              || is_infinity (libm_acos P 0%float)
           then ValueError else ZeroDivisionError in
  hsia P (mkColor 128 128 128 a) = Raise e /\
  hsi P (mkColor 128 128 128 a) = Raise e /\
  Color_getattr P (Some (mkColor 128 128 128 a)) "hsia" = Raise e /\
  Color_getattr P (Some (mkColor 128 128 128 a)) "hsi" = Raise e.
Proof.
  intros e.
  assert (H : hsia P (mkColor 128 128 128 a) = Raise e).
  { rewrite hsia_gray. unfold math_1, e.
    change (is_nan 0%float) with false. change (is_finite 0%float) with true.
    rewrite !andb_true_r.
    destruct (is_nan (libm_acos P 0%float)); simpl; [reflexivity|].
    destruct (is_infinity (libm_acos P 0%float)); reflexivity. }
  assert (H' : hsi P (mkColor 128 128 128 a) = Raise e)
    by (unfold hsi; rewrite H; reflexivity).
  split; [exact H|]. split; [exact H'|].
  split; [exact H|exact H'].
Qed.

Lemma hsia_gray_level (P : platform) (a : Z) (n : nat) :
  (n < 256)%nat ->
  hsia P (mkColor (Z.of_nat n) (Z.of_nat n) (Z.of_nat n) a) =
  match n with
  | O => Raise ZeroDivisionError
  | S _ =>
      match math_1 (libm_acos P) 0%float with
      | Ok _ => Raise ZeroDivisionError
      | Raise e => Raise e
      end
  end.
Proof.
  intros Hn.
  do 256 (destruct n as [|n]; [vm_compute; reflexivity|]).
  lia.
Qed.

(** Every achromatic color with components in [0, 255] makes [hsia] raise:
    black in the saturation (the intensity is zero), the others in the
    hue. *)
Lemma hsia_achromatic_raises (P : platform) (v a : Z) :
  0 <= v <= 255 -> raises (hsia P (mkColor v v v a)).
Proof.
  intros Hv. rewrite <- (Z2Nat.id v) by lia.
  rewrite hsia_gray_level by lia.
  destruct (Z.to_nat v); [eexists; reflexivity|].
  destruct (math_1 (libm_acos P) 0%float); eexists; reflexivity.
Qed.

(** * Further properties *)

(** ** Construction from sequences and from colors *)

(** X1: a list or tuple of up to four ints is accepted, the missing
    components taking the defaults 0, 0, 0 and 255 (so the empty list gives
    opaque black); one of five or more items raises TypeError.  Keywords are
    ignored on this path. *)
Theorem init_sequence (P : platform) (cache : gmap string instance)
    (kw : kwargs) (zs : list Z) :
  ((length zs <= 4)%nat ->
   __init__ P cache [PList (map PInt zs)] kw =
     Ok (Some (mkColor (nth 0 zs 0) (nth 1 zs 0) (nth 2 zs 0) (nth 3 zs 255)))
   /\ __init__ P cache [PTuple (map PInt zs)] kw =
     Ok (Some (mkColor (nth 0 zs 0) (nth 1 zs 0) (nth 2 zs 0)
                 (nth 3 zs 255)))) /\
  ((4 < length zs)%nat ->
   __init__ P cache [PList (map PInt zs)] kw = Raise TypeError
   /\ __init__ P cache [PTuple (map PInt zs)] kw = Raise TypeError).
Proof.
  split; intros Hlen.
  - destruct zs as [|a [|b [|c [|d [|e rest]]]]]; simpl in Hlen;
      try lia; split; reflexivity.
  - destruct zs as [|a [|b [|c [|d [|e rest]]]]]; simpl in Hlen;
      try lia; split; reflexivity.
Qed.

Lemma init_sequence_witness :
  __init__ sample_platform ∅ [PList (map PInt [7; 8])] [("a", PInt 1)]
    = Ok (Some (mkColor 7 8 0 255)) /\
  __init__ sample_platform ∅ [PTuple (map PInt [1; 2; 3; 4; 5])] []
    = Raise TypeError.
Proof.
  split.
  - apply (init_sequence sample_platform ∅ [("a", PInt 1)] [7; 8]).
    simpl. lia.
  - apply (init_sequence sample_platform ∅ [] [1; 2; 3; 4; 5]).
    simpl. lia.
Defined.

(** X2: building a Color from a Color returns the same components, from its
    [rgba] tuple as well, and from its [rgb] tuple the same color made
    opaque; a Color object whose slots were never set cannot be copied. *)
Theorem init_from_color (P : platform) (cache : gmap string instance)
    (kw : kwargs) (c : Color) :
  __init__ P cache [PColor (Some c)] kw = Ok (Some c) /\
  (let* t := rgba c in __init__ P cache [t] kw) = Ok (Some c) /\
  (let* t := rgb c in __init__ P cache [t] kw) =
    Ok (Some (mkColor (_red c) (_green c) (_blue c) 255)) /\
  __init__ P cache [PColor None] kw = Raise AttributeError.
Proof. destruct c as [r g b a]. repeat split. Qed.

(** ** Packed words *)

(** X3: for every int, of any sign and size, the Color built from it has
    components between 0 and 255 and alpha 255, and its packed RGB word is
    the int modulo 2^24: the bits above bit 23 are dropped. *)
Theorem init_packed_any_int (P : platform) (cache : gmap string instance)
    (w : Z) :
  exists c : Color,
    __init__ P cache [PInt w] [] = Ok (Some c) /\
    in_range c /\ _alpha c = 255 /\
    rgbu c = Ok (w mod 2 ^ 24).
Proof.
  eexists. split; [apply init_packed|].
  change (2 ^ 16) with 65536. change (2 ^ 8) with 256.
  change (2 ^ 24) with 16777216.
  split; [|split; [reflexivity|]].
  - unfold in_range; simpl.
    pose proof (Z.mod_pos_bound (w / 65536) 256).
    pose proof (Z.mod_pos_bound (w / 256) 256).
    pose proof (Z.mod_pos_bound w 256). lia.
  - unfold rgbu. simpl. rewrite !Z.shiftl_mul_pow2 by lia.
    change (2 ^ 16) with 65536. change (2 ^ 8) with 256.
    f_equal. Z.div_mod_to_equations. lia.
Qed.

Lemma rgbau_value (c : Color) :
  rgbau c = Ok (_red c * 2 ^ 24 + _green c * 2 ^ 16 + _blue c * 2 ^ 8
                + _alpha c).
Proof.
  unfold rgbau. simpl. rewrite !Z.shiftl_mul_pow2 by lia. reflexivity.
Qed.

(** X4: on colors whose components are bytes the packed RGBA word lies in
    [0, 2^32), is the packed RGB word times 256 plus alpha, and determines
    the color; without the range condition two different colors can share a
    word. *)
Theorem rgbau_injective (c1 c2 : Color) (w : Z) :
  in_range c1 -> in_range c2 ->
  rgbau c1 = Ok w -> rgbau c2 = Ok w ->
  c1 = c2 /\ 0 <= w < 2 ^ 32 /\
  (exists u, rgbu c1 = Ok u /\ w = u * 256 + _alpha c1) /\
  rgbau (mkColor 0 0 1 0) = rgbau (mkColor 0 0 0 256).
Proof.
  intros R1 R2 H1 H2. rewrite rgbau_value in H1, H2.
  injection H1 as H1. injection H2 as H2.
  destruct c1 as [r1 g1 b1 a1], c2 as [r2 g2 b2 a2].
  unfold in_range in R1, R2. simpl in *.
  change (2 ^ 24) with 16777216 in *. change (2 ^ 16) with 65536 in *.
  change (2 ^ 8) with 256 in *. change (2 ^ 32) with 4294967296.
  split; [|split; [lia|split; [|reflexivity]]].
  - assert (r1 = r2 /\ g1 = g2 /\ b1 = b2 /\ a1 = a2) as (-> & -> & -> & ->)
      by lia.
    reflexivity.
  - eexists. split.
    + unfold rgbu. simpl. rewrite !Z.shiftl_mul_pow2 by lia. reflexivity.
    + change (2 ^ 16) with 65536. change (2 ^ 8) with 256. lia.
Qed.

Lemma rgbau_injective_witness :
  mkColor 1 2 3 4 = mkColor 1 2 3 4 /\ 0 <= 16909060 < 2 ^ 32 /\
  (exists u, rgbu (mkColor 1 2 3 4) = Ok u
             /\ 16909060 = u * 256 + _alpha (mkColor 1 2 3 4)) /\
  rgbau (mkColor 0 0 1 0) = rgbau (mkColor 0 0 0 256).
Proof.
  apply (rgbau_injective (mkColor 1 2 3 4) (mkColor 1 2 3 4) 16909060);
    try (unfold in_range; simpl; lia); reflexivity.
Defined.

(** ** Comparison *)

(** X5: between two Color objects [==] decides equality of the four
    components, so it is reflexive and symmetric; against a Color object
    whose slots were never set it raises AttributeError. *)
Theorem eq_colors (c c' : Color) :
  (__eq__ c (PColor (Some c')) = Ok true <-> c = c') /\
  (__eq__ c (PColor (Some c')) = Ok false <-> c <> c') /\
  __eq__ c (PColor (Some c')) = __eq__ c' (PColor (Some c)) /\
  __eq__ c (PColor None) = Raise AttributeError.
Proof.
  destruct c as [r g b a], c' as [r' g' b' a'].
  unfold __eq__, try_except. simpl.
  destruct (Z.eqb_spec r r'), (Z.eqb_spec r' r); try congruence; simpl;
    [|repeat split; try congruence; intros; congruence].
  destruct (Z.eqb_spec g g'), (Z.eqb_spec g' g); try congruence; simpl;
    [|repeat split; try congruence; intros; congruence].
  destruct (Z.eqb_spec b b'), (Z.eqb_spec b' b); try congruence; simpl;
    [|repeat split; try congruence; intros; congruence].
  destruct (Z.eqb_spec a a'), (Z.eqb_spec a' a); try congruence; simpl;
    repeat split; try congruence; intros; congruence.
Qed.

(** X6: comparing a Color with a value that has neither slots nor a length
    ([None], a bool, an int, a float) raises TypeError instead of answering
    False; a tuple or list whose length is not 3 or 4 and every string
    compare unequal. *)
Theorem eq_other_values (c : Color) (l : list pyval) :
  __eq__ c PNone = Raise TypeError /\
  (forall b, __eq__ c (PBool b) = Raise TypeError) /\
  (forall z, __eq__ c (PInt z) = Raise TypeError) /\
  (forall f, __eq__ c (PFloat f) = Raise TypeError) /\
  (forall s, __eq__ c (PStr s) = Ok false) /\
  (length l <> 3%nat -> length l <> 4%nat ->
   __eq__ c (PTuple l) = Ok false /\ __eq__ c (PList l) = Ok false).
Proof.
  repeat split; try reflexivity.
  - intros s. unfold __eq__, try_except. simpl.
    destruct s as [|c1 [|c2 [|c3 [|c4 [|c5 s]]]]]; try reflexivity.
    + simpl. destruct (_alpha c =? 255); reflexivity.
    + unfold str_len, py_len. simpl String.length.
      assert (H4 : (Z.of_nat (S (S (S (S (S (String.length s)))))) =? 4)
                   = false) by (apply Z.eqb_neq; lia).
      assert (H3 : (Z.of_nat (S (S (S (S (S (String.length s)))))) =? 3)
                   = false) by (apply Z.eqb_neq; lia).
      rewrite H4, H3. reflexivity.
  - unfold __eq__, try_except. simpl.
    destruct (Z.eqb_spec (Z.of_nat (length l)) 4); [lia|].
    destruct (Z.eqb_spec (Z.of_nat (length l)) 3); [lia|]. reflexivity.
  - unfold __eq__, try_except. simpl.
    destruct (Z.eqb_spec (Z.of_nat (length l)) 4); [lia|].
    destruct (Z.eqb_spec (Z.of_nat (length l)) 3); [lia|]. reflexivity.
Qed.

Lemma eq_other_values_witness :
  __eq__ (mkColor 1 2 3 255) (PTuple [PInt 1; PInt 2]) = Ok false /\
  __eq__ (mkColor 1 2 3 255) (PList [PInt 1; PInt 2]) = Ok false.
Proof.
  apply (eq_other_values (mkColor 1 2 3 255) [PInt 1; PInt 2]);
    simpl; lia.
Defined.

(** X7: a Color always equals its own [rgba] tuple, and equals its own
    [rgb] tuple exactly when its alpha is 255. *)
Theorem eq_own_views (c : Color) :
  (let* t := rgba c in __eq__ c t) = Ok true /\
  (let* t := rgb c in __eq__ c t) = Ok (_alpha c =? 255).
Proof.
  destruct c as [r g b a]. split.
  - unfold rgba, __eq__, try_except. simpl. rewrite !Z.eqb_refl. reflexivity.
  - unfold rgb, __eq__, try_except. simpl.
    destruct (a =? 255); [|reflexivity]. rewrite !Z.eqb_refl. reflexivity.
Qed.

(** ** Slices *)

Lemma py_range_up (start stop step i : Z) :
  0 < step -> In i (py_range start stop step) -> start <= i < stop.
Proof.
  intros Hs Hi. unfold py_range in Hi.
  destruct (Z.ltb_spec 0 step); [|lia].
  apply in_map_iff in Hi as [k [E Hk]]. subst i. apply in_seq in Hk.
  destruct (Z.ltb_spec start stop); [|simpl in Hk; lia].
  pose proof (Z.mul_div_le (stop - start - 1) step Hs).
  assert (0 <= (stop - start - 1) / step) by (apply Z.div_pos; lia).
  assert (Z.of_nat k <= (stop - start - 1) / step) by lia.
  nia.
Qed.

Lemma py_range_down (start stop step i : Z) :
  step < 0 -> In i (py_range start stop step) -> stop < i <= start.
Proof.
  intros Hs Hi. unfold py_range in Hi.
  destruct (Z.ltb_spec 0 step); [lia|].
  apply in_map_iff in Hi as [k [E Hk]]. subst i. apply in_seq in Hk.
  destruct (Z.ltb_spec stop start); [|simpl in Hk; lia].
  assert (Hp : 0 < - step) by lia.
  pose proof (Z.mul_div_le (start - stop - 1) (- step) Hp).
  assert (0 <= (start - stop - 1) / - step) by (apply Z.div_pos; lia).
  assert (Z.of_nat k <= (start - stop - 1) / - step) by lia.
  nia.
Qed.

(** A slice never selects a position outside the sequence. *)
Lemma slice_indices_range (len : Z) (start stop step : option Z)
    (idx : list Z) (i : Z) :
  0 <= len -> slice_indices len start stop step = Ok idx -> In i idx ->
  0 <= i < len.
Proof.
  intros Hlen H Hi. unfold slice_indices in H.
  destruct (Z.eqb_spec (default 1 step) 0) as [|Hne]; [discriminate|].
  injection H as <-.
  destruct (Z.ltb_spec (default 1 step) 0) as [Hneg|Hpos].
  - apply py_range_down in Hi; [|assumption].
    destruct start as [s|], stop as [t|];
      repeat match goal with
             | H : context [?a <? ?b] |- _ => destruct (Z.ltb_spec a b)
             end; lia.
  - apply py_range_up in Hi; [|lia].
    destruct start as [s|], stop as [t|];
      repeat match goal with
             | H : context [?a <? ?b] |- _ => destruct (Z.ltb_spec a b)
             end; lia.
Qed.

Lemma mapM_cons {A B} (f : A -> result B) (x : A) (t : list A) :
  mapM f (x :: t) =
  let* y := f x in let* ys := mapM f t in Ok (y :: ys).
Proof. reflexivity. Qed.

Lemma getitem_positions (c : Color) (idx : list Z) :
  (forall i, In i idx -> 0 <= i < 4) ->
  exists vs : list Z,
    mapM (getitem_int c) idx = Ok vs /\
    omap (fun i => map PInt (Color_iter c) !! Z.to_nat i) idx = map PInt vs.
Proof.
  induction idx as [|i idx IH]; intros Hin.
  - exists []. split; reflexivity.
  - destruct IH as (vs & Hm & Ho); [intros j Hj; apply Hin; right; exact Hj|].
    assert (Hi : i = 0 \/ i = 1 \/ i = 2 \/ i = 3)
      by (specialize (Hin i (or_introl eq_refl)); lia).
    destruct Hi as [-> | [-> | [-> | ->]]];
      (eexists; split;
       [rewrite mapM_cons, Hm; reflexivity
       |etransitivity; [|apply (f_equal (cons _) Ho)]; reflexivity]).
Qed.

(** X8: indexing a Color with a slice gives what the same slice gives on
    its [rgba] tuple, for every start, stop and non-zero step, and never
    raises; a zero step raises ValueError.  In particular [c[:]] is the four
    components and [c[::-1]] the four in reverse. *)
Theorem getitem_slice (c : Color) (start stop step : option Z) :
  (step = Some 0 ->
   __getitem__ c (PSlice start stop step) = Raise ValueError) /\
  (step <> Some 0 ->
   exists l : list pyval,
     tuple_slice (map PInt (Color_iter c)) (PSlice start stop step) = Ok l /\
     __getitem__ c (PSlice start stop step) = Ok (PTuple l)) /\
  __getitem__ c (PSlice None None None) =
    Ok (PTuple (map PInt (Color_iter c))) /\
  __getitem__ c (PSlice None None (Some (-1))) =
    Ok (PTuple (map PInt (rev (Color_iter c)))).
Proof.
  split; [intros ->; reflexivity|]. split; [|split; reflexivity].
  intros Hstep.
  assert (Hidx : exists idx, slice_indices 4 start stop step = Ok idx).
  { unfold slice_indices.
    destruct (Z.eqb_spec (default 1 step) 0) as [E|]; [|eexists; reflexivity].
    destruct step as [s|]; simpl in E; [subst; contradiction|discriminate]. }
  destruct Hidx as (idx & Hidx).
  destruct (getitem_positions c idx) as (vs & Hm & Ho).
  { intros i Hi. apply (slice_indices_range 4 start stop step idx i);
      [lia|exact Hidx|exact Hi]. }
  exists (map PInt vs). split.
  - unfold tuple_slice. change (Z.of_nat (length (map PInt (Color_iter c))))
      with 4. rewrite Hidx. unfold bind. rewrite Ho. reflexivity.
  - unfold __getitem__, tuple_slice. simpl as_int. cbv iota.
    change (Z.of_nat (length _RANGE)) with 4. rewrite Hidx.
    unfold bind at 1 2.
    assert (Hr : omap (fun i => _RANGE !! Z.to_nat i) idx = idx).
    { assert (Hin : forall i, In i idx -> 0 <= i < 4)
        by (intros i Hi; apply (slice_indices_range 4 start stop step idx i);
            [lia|exact Hidx|exact Hi]).
      clear -Hin. induction idx as [|i idx IH]; [reflexivity|].
      assert (Hi : i = 0 \/ i = 1 \/ i = 2 \/ i = 3)
        by (specialize (Hin i (or_introl eq_refl)); lia).
      specialize (IH (fun j Hj => Hin j (or_intror Hj))).
      destruct Hi as [-> | [-> | [-> | ->]]];
        (etransitivity; [|apply (f_equal (cons _) IH)]; reflexivity). }
    rewrite Hr, Hm. reflexivity.
Qed.

Lemma getitem_slice_witness :
  __getitem__ (mkColor 1 2 3 4) (PSlice None None (Some 0))
    = Raise ValueError /\
  exists l : list pyval,
    tuple_slice (map PInt (Color_iter (mkColor 1 2 3 4)))
      (PSlice (Some (-3)) (Some 9) (Some 2)) = Ok l /\
    __getitem__ (mkColor 1 2 3 4) (PSlice (Some (-3)) (Some 9) (Some 2))
      = Ok (PTuple l).
Proof.
  split.
  - apply (getitem_slice (mkColor 1 2 3 4) None None (Some 0)). reflexivity.
  - apply (getitem_slice (mkColor 1 2 3 4) (Some (-3)) (Some 9) (Some 2)).
    discriminate.
Defined.

(** ** Normalised components *)

Lemma component_f_level (n : nat) :
  (n < 256)%nat ->
  exists f : float,
    component_f (Z.of_nat n) = Ok (PFloat f) /\
    int_truediv (Z.of_nat n) 255 = Ok f /\ unit_float f.
Proof.
  intros Hn.
  do 256 (destruct n as [|n];
          [eexists; split; [vm_compute; reflexivity|];
           split; vm_compute; [reflexivity|split; reflexivity]|]).
  lia.
Qed.

Lemma component_f_byte (x : Z) :
  0 <= x <= 255 ->
  exists f : float,
    component_f x = Ok (PFloat f) /\ int_truediv x 255 = Ok f /\ unit_float f.
Proof.
  intros Hx. rewrite <- (Z2Nat.id x) by lia. apply component_f_level. lia.
Qed.

(** X9: for a color whose components are bytes, [rgbf] and [rgbaf] return
    floats between 0.0 and 1.0, the same floats as the int division of each
    component by 255; [rgbf] is [rgbaf] without its last item. *)
Theorem rgbf_in_unit_interval (c : Color) :
  in_range c ->
  exists fr fg fb fa : float,
    rgbaf c = Ok (PTuple [PFloat fr; PFloat fg; PFloat fb; PFloat fa]) /\
    rgbf c = Ok (PTuple [PFloat fr; PFloat fg; PFloat fb]) /\
    unit_float fr /\ unit_float fg /\ unit_float fb /\ unit_float fa /\
    int_truediv (_red c) 255 = Ok fr /\ int_truediv (_green c) 255 = Ok fg /\
    int_truediv (_blue c) 255 = Ok fb /\ int_truediv (_alpha c) 255 = Ok fa.
Proof.
  destruct c as [r g b a]. unfold in_range. simpl. intros (Hr & Hg & Hb & Ha).
  destruct (component_f_byte r Hr) as (fr & Er & Dr & Ur).
  destruct (component_f_byte g Hg) as (fg & Eg & Dg & Ug).
  destruct (component_f_byte b Hb) as (fb & Eb & Db & Ub).
  destruct (component_f_byte a Ha) as (fa & Ea & Da & Ua).
  exists fr, fg, fb, fa.
  split.
  { change (rgbaf (mkColor r g b a))
      with (let* fs := mapM component_f [r; g; b; a] in Ok (PTuple fs)).
    rewrite !mapM_cons, Er, Eg, Eb, Ea. reflexivity. }
  split.
  { change (rgbf (mkColor r g b a))
      with (let* fs := mapM component_f [r; g; b] in Ok (PTuple fs)).
    rewrite !mapM_cons, Er, Eg, Eb. reflexivity. }
  auto 10.
Qed.

Lemma rgbf_in_unit_interval_witness :
  exists fr fg fb fa : float,
    rgbaf (mkColor 0 128 255 64)
      = Ok (PTuple [PFloat fr; PFloat fg; PFloat fb; PFloat fa]) /\
    rgbf (mkColor 0 128 255 64) = Ok (PTuple [PFloat fr; PFloat fg; PFloat fb])
    /\ unit_float fr /\ unit_float fg /\ unit_float fb /\ unit_float fa /\
    int_truediv 0 255 = Ok fr /\ int_truediv 128 255 = Ok fg /\
    int_truediv 255 255 = Ok fb /\ int_truediv 64 255 = Ok fa.
Proof.
  apply (rgbf_in_unit_interval (mkColor 0 128 255 64)).
  unfold in_range. simpl. lia.
Defined.

(** ** Hue of achromatic colors *)

(** X10: for every achromatic color with components between 0 and 255 the
    hue, saturation, intensity accessor raises: black in the saturation,
    whose divisor is the zero intensity, every other gray in the hue. *)
Theorem hsia_achromatic (P : platform) (v a : Z) :
  0 <= v <= 255 ->
  raises (hsia P (mkColor v v v a)) /\ raises (hsi P (mkColor v v v a)) /\
  hsia P (mkColor 0 0 0 a) = Raise ZeroDivisionError.
Proof.
  intros Hv. destruct (hsia_achromatic_raises P v a Hv) as (e & He).
  split; [exists e; exact He|]. split; [|vm_compute; reflexivity].
  exists e. unfold hsi. rewrite He. reflexivity.
Qed.

Lemma hsia_achromatic_witness :
  raises (hsia sample_platform (mkColor 200 200 200 7)) /\
  raises (hsi sample_platform (mkColor 200 200 200 7)) /\
  hsia sample_platform (mkColor 0 0 0 7) = Raise ZeroDivisionError.
Proof. apply (hsia_achromatic sample_platform 200 7). lia. Defined.

(** ** The registry *)

Lemma Color_eqb_eq (c1 c2 : Color) : Color_eqb c1 c2 = true -> c1 = c2.
Proof.
  destruct c1, c2. unfold Color_eqb. simpl. intros H.
  repeat (apply andb_prop in H as [H ?]).
  repeat match goal with E : (_ =? _) = true |- _ =>
           apply Z.eqb_eq in E end.
  congruence.
Qed.

Lemma in_rangeb_in_range (c : Color) : in_rangeb c = true -> in_range c.
Proof.
  destruct c as [r g b a]. unfold in_rangeb, in_range. simpl. intros H.
  repeat match goal with
         | E : _ && _ = true |- _ => apply andb_prop in E as [? ?]
         end.
  repeat match goal with
         | E : (_ <=? _) = true |- _ => apply Z.leb_le in E
         end.
  lia.
Qed.

Lemma registry_keys (P : platform) (k : string) (v : instance) :
  _CACHE P !! k = Some v ->
  startswith_hash k = false /\ k <> "random" /\ is_Some v.
Proof.
  assert (H : bool_decide
                (map_Forall (fun k (v : instance) =>
                               startswith_hash k = false /\ k <> "random"
                               /\ is_Some v) (_CACHE P)) = true)
    by (vm_compute; reflexivity).
  apply bool_decide_eq_true in H. apply H.
Qed.

(** X11: every name of the two seed tables is in the registry once the
    module is loaded; building a Color from the name gives the same color
    as building it from the hex code listed with the name, with all
    components between 0 and 255.  The registry holds 150 names. *)
Theorem registry_seed (P : platform) (name hex : string) :
  In (name, hex) seed_table ->
  exists c : Color,
    _CACHE P !! name = Some (Some c) /\
    base.Color_ P [PStr name] [] = Ok (Some c) /\
    base.Color_ P [PStr hex] [] = Ok (Some c) /\
    in_range c /\
    size (_CACHE P) = 150%nat.
Proof.
  intros Hin.
  assert (Hsize : size (_CACHE P) = 150%nat) by (vm_compute; reflexivity).
  assert (Hall : (let cache := _CACHE P in
            forallb (fun p =>
              match cache !! fst p, __init__ P cache [PStr (fst p)] [],
                    __init__ P cache [PStr (snd p)] [] with
              | Some (Some c1), Ok (Some c2), Ok (Some c3) =>
                  Color_eqb c1 c2 && Color_eqb c1 c3 && in_rangeb c1
              | _, _, _ => false
              end) seed_table) = true) by (vm_compute; reflexivity).
  cbv zeta in Hall. rewrite forallb_forall in Hall.
  specialize (Hall _ Hin). cbv beta in Hall.
  change (fst (name, hex)) with name in Hall.
  change (snd (name, hex)) with hex in Hall.
  unfold base.Color_. generalize dependent (_CACHE P). intros cache Hs Hall.
  destruct (cache !! name) as [[c1|]|]; try discriminate.
  destruct (__init__ P cache [PStr name] []) as [[c2|]|];
    try discriminate.
  destruct (__init__ P cache [PStr hex] []) as [[c3|]|];
    try discriminate.
  apply andb_prop in Hall as [Hall Hr]. apply andb_prop in Hall as [H2 H3].
  apply Color_eqb_eq in H2, H3. subst c2 c3.
  apply in_rangeb_in_range in Hr.
  exists c1. split; [reflexivity|]. split; [reflexivity|].
  split; [reflexivity|]. split; [exact Hr|exact Hs].
Qed.

Lemma registry_seed_witness :
  exists c : Color,
    _CACHE sample_platform !! "transparent" = Some (Some c) /\
    base.Color_ sample_platform [PStr "transparent"] [] = Ok (Some c) /\
    base.Color_ sample_platform [PStr "#ffffff00"] [] = Ok (Some c) /\
    in_range c /\
    size (_CACHE sample_platform) = 150%nat.
Proof.
  apply (registry_seed sample_platform "transparent" "#ffffff00").
  unfold seed_table. simpl. do 16 right. left. reflexivity.
Defined.

(** ** Names *)

Lemma lower_char_hash (c : ascii) :
  Ascii.eqb (lower_char c) "#" = Ascii.eqb c "#".
Proof. destruct c as [[] [] [] [] [] [] [] []]; vm_compute; reflexivity. Qed.

Lemma startswith_hash_lower (s : string) :
  startswith_hash (lower s) = startswith_hash s.
Proof.
  destruct s as [|c t]; [reflexivity|].
  assert (H : forall x r, startswith_hash (String x r) = Ascii.eqb x "#").
  { intros x r. destruct x as [[] [] [] [] [] [] [] []]; reflexivity. }
  simpl lower. rewrite !H. apply lower_char_hash.
Qed.

Lemma fromrgba_of_color (c : Color) :
  call_fromrgba (map PInt (Color_iter c)) [] = Ok c.
Proof. destruct c. reflexivity. Qed.

Lemma init_name (P : platform) (cache : gmap string instance) (s : string) :
  startswith_hash s = false -> s <> "random" ->
  __init__ P cache [PStr s] [] = initialised (_fromname cache s).
Proof.
  intros Hh Hr. unfold __init__. rewrite Hh.
  destruct (String.eqb_spec s "random"); [contradiction|]. reflexivity.
Qed.

(** X12: a name is looked up in lower case, so a string in any mix of
    cases whose lower-case form is registered gives the registered color; a
    string that is not registered, does not start with '#' and is not
    "random" raises KeyError; any keyword passed with a name raises
    TypeError. *)
Theorem name_lookup (P : platform) (s : string) (c : Color) (kw : kwargs) :
  (_CACHE P !! lower s = Some (Some c) ->
   base.Color_ P [PStr s] [] = Ok (Some c)) /\
  (startswith_hash s = false -> s <> "random" ->
   _CACHE P !! lower s = None ->
   base.Color_ P [PStr s] [] = Raise KeyError) /\
  (startswith_hash s = false -> s <> "random" -> kw <> [] ->
   base.Color_ P [PStr s] kw = Raise TypeError).
Proof.
  split; [|split].
  - intros Hc. destruct (registry_keys P _ _ Hc) as (Hh & Hr & _).
    rewrite startswith_hash_lower in Hh.
    assert (Hs : s <> "random") by (intros ->; apply Hr; reflexivity).
    unfold base.Color_. rewrite init_name by assumption.
    unfold _fromname. cbv zeta. unfold instance in *.
    rewrite Hc, fromrgba_of_color. reflexivity.
  - intros Hh Hr Hn. unfold base.Color_. rewrite init_name by assumption.
    unfold _fromname. cbv zeta. unfold instance in *.
    rewrite Hn. reflexivity.
  - intros Hh Hr Hk. unfold base.Color_, __init__. rewrite Hh.
    destruct (String.eqb_spec s "random"); [contradiction|].
    destruct kw as [|[k v] kw']; [contradiction|]. reflexivity.
Qed.

Lemma name_lookup_witness :
  base.Color_ sample_platform [PStr "DarkOrange"] []
    = Ok (Some (mkColor 255 140 0 255)) /\
  base.Color_ sample_platform [PStr "Random"] [] = Raise KeyError /\
  base.Color_ sample_platform [PStr "red"] [("alpha", PInt 3)]
    = Raise TypeError.
Proof.
  split; [|split].
  - apply (name_lookup sample_platform "DarkOrange" (mkColor 255 140 0 255)
             []).
    vm_compute. reflexivity.
  - apply (name_lookup sample_platform "Random" (mkColor 0 0 0 0) []);
      [reflexivity|discriminate|vm_compute; reflexivity].
  - apply (name_lookup sample_platform "red" (mkColor 0 0 0 0)
             [("alpha", PInt 3)]); [reflexivity|discriminate|discriminate].
Defined.

(** ** Keywords *)

(** X13: the alpha of a color given by three components or by a packed int
    is passed under the keyword [a], and the alpha of a hex string under the
    keyword [alpha]; each keyword raises TypeError on the other path, and
    [a] raises TypeError next to four components. *)
Theorem constructor_keywords (P : platform) (cache : gmap string instance)
    (r g b a z w : Z) (s : string) :
  __init__ P cache [PInt r; PInt g; PInt b] [("a", PInt z)]
    = Ok (Some (mkColor r g b z)) /\
  __init__ P cache [PInt r; PInt g; PInt b] [("alpha", PInt z)]
    = Raise TypeError /\
  __init__ P cache [PInt r; PInt g; PInt b; PInt a] [("a", PInt z)]
    = Raise TypeError /\
  __init__ P cache [PInt w] [("a", PInt z)]
    = Ok (Some (mkColor ((w / 2 ^ 16) mod 256) ((w / 2 ^ 8) mod 256)
                  (w mod 256) z)) /\
  __init__ P cache [PInt w] [("alpha", PInt z)] = Raise TypeError /\
  __init__ P cache [PStr (String "#" s)] [("alpha", PInt z)]
    = initialised (_fromhex (String "#" s) (PInt z)) /\
  __init__ P cache [PStr (String "#" s)] [("a", PInt z)] = Raise TypeError.
Proof.
  split; [reflexivity|]. split; [reflexivity|]. split; [reflexivity|].
  split.
  { unfold __init__. simpl as_int. cbv iota.
    change 0xff0000 with (Z.shiftl 255 16).
    change 0xff00 with (Z.shiftl 255 8). change 0xff with (Z.shiftl 255 0).
    rewrite !byte_field by lia. rewrite Z.pow_0_r, Z.div_1_r. reflexivity. }
  split; [reflexivity|]. split; reflexivity.
Qed.

(** ** Bounds of parsed hex strings *)

Lemma ascii_in_all (c : ascii) : In c all_ascii.
Proof.
  unfold all_ascii. apply in_map_iff. exists (nat_of_ascii c).
  split; [apply ascii_nat_embedding|].
  apply in_seq. pose proof (nat_ascii_bounded c). lia.
Qed.

Lemma hex_pair_bounds (a b : ascii) (v : Z) :
  int_of_string (String a (String b "")) 16 = Ok v -> hex_component v.
Proof.
  assert (Hall : forallb (fun x => forallb (fun y =>
            match int_of_string (String x (String y "")) 16 with
            | Ok v => (-15 <=? v) && (v <=? 255)
            | Raise _ => true
            end) all_ascii) all_ascii = true) by (vm_compute; reflexivity).
  rewrite forallb_forall in Hall. specialize (Hall a (ascii_in_all a)).
  rewrite forallb_forall in Hall. specialize (Hall b (ascii_in_all b)).
  intros H. rewrite H in Hall. apply andb_prop in Hall as [H1 H2].
  apply Z.leb_le in H1, H2. unfold hex_component. lia.
Qed.

Lemma fromhex_first_char (c0 : ascii) (s : string) (alpha : pyval) :
  _fromhex (String c0 s) alpha = _fromhex (String "#" s) alpha.
Proof. reflexivity. Qed.

Lemma fromhex_six_bounds (c1 c2 c3 c4 c5 c6 : ascii) (alpha : pyval)
    (c : Color) :
  _fromhex (hex6 c1 c2 c3 c4 c5 c6) alpha = Ok c ->
  hex_component (_red c) /\ hex_component (_green c)
  /\ hex_component (_blue c).
Proof.
  rewrite fromhex_six. intros H.
  destruct (int_of_string (String c1 (String c2 "")) 16) as [r|] eqn:Er;
    [|discriminate].
  destruct (int_of_string (String c3 (String c4 "")) 16) as [g|] eqn:Eg;
    [|discriminate].
  destruct (int_of_string (String c5 (String c6 "")) 16) as [b|] eqn:Eb;
    [|discriminate].
  apply hex_pair_bounds in Er, Eg, Eb.
  unfold bind, _fromrgba in H. simpl in H.
  destruct (py_int alpha); [|discriminate].
  injection H as <-. auto.
Qed.

Lemma fromhex_eight_bounds (c1 c2 c3 c4 c5 c6 c7 c8 : ascii) (alpha : pyval)
    (c : Color) :
  _fromhex (hex8 c1 c2 c3 c4 c5 c6 c7 c8) alpha = Ok c ->
  hex_component (_red c) /\ hex_component (_green c)
  /\ hex_component (_blue c) /\ hex_component (_alpha c).
Proof.
  rewrite fromhex_eight. intros H.
  destruct (int_of_string (String c1 (String c2 "")) 16) as [r|] eqn:Er;
    [|discriminate].
  destruct (int_of_string (String c3 (String c4 "")) 16) as [g|] eqn:Eg;
    [|discriminate].
  destruct (int_of_string (String c5 (String c6 "")) 16) as [b|] eqn:Eb;
    [|discriminate].
  destruct (int_of_string (String c7 (String c8 "")) 16) as [a|] eqn:Ea;
    [|discriminate].
  apply hex_pair_bounds in Er, Eg, Eb, Ea.
  injection H as <-. auto.
Qed.

(** X14: whenever a hex string parses, whatever its characters are, the
    red, green and blue components lie between -15 and 255, and so does the
    alpha when it comes from the string (4 or 8 characters).  The lower
    bound is reached: a sign is accepted in front of a digit, so "#-f-f-f"
    gives (-15, -15, -15). *)
Theorem fromhex_component_bounds (s : string) (alpha : pyval) (c : Color) :
  _fromhex s alpha = Ok c ->
  hex_component (_red c) /\ hex_component (_green c)
  /\ hex_component (_blue c) /\
  (String.length (drop_first s) = 4%nat
   \/ String.length (drop_first s) = 8%nat -> hex_component (_alpha c)) /\
  _fromhex "#-f-f-f" (PInt 255) = Ok (mkColor (-15) (-15) (-15) 255).
Proof.
  intros H.
  assert (Hgoal : hex_component (_red c) /\ hex_component (_green c)
                  /\ hex_component (_blue c) /\
                  (String.length (drop_first s) = 4%nat
                   \/ String.length (drop_first s) = 8%nat ->
                   hex_component (_alpha c))).
  { destruct s as [|c0 v];
      [rewrite fromhex_bad_length in H by (simpl; intuition lia);
       discriminate|].
    rewrite fromhex_first_char in H.
    destruct v as [|c1 [|c2 [|c3 [|c4 [|c5 [|c6 [|c7 [|c8 [|c9 v]]]]]]]]];
      try (rewrite fromhex_bad_length in H by (simpl; intuition lia);
           discriminate).
    - change (_fromhex (String "#" (String c1 (String c2 (String c3 ""))))
                alpha)
        with (_fromhex (hex6 c1 c1 c2 c2 c3 c3) alpha) in H.
      apply fromhex_six_bounds in H as (Hr & Hg & Hb).
      split; [exact Hr|]. split; [exact Hg|]. split; [exact Hb|].
      simpl. intros [E|E]; discriminate.
    - change (_fromhex
                (String "#" (String c1 (String c2 (String c3 (String c4 "")))))
                alpha)
        with (_fromhex (hex8 c1 c1 c2 c2 c3 c3 c4 c4) alpha) in H.
      apply fromhex_eight_bounds in H as (Hr & Hg & Hb & Ha).
      split; [exact Hr|]. split; [exact Hg|]. split; [exact Hb|].
      intros _. exact Ha.
    - apply (fromhex_six_bounds c1 c2 c3 c4 c5 c6) in H as (Hr & Hg & Hb).
      split; [exact Hr|]. split; [exact Hg|]. split; [exact Hb|].
      simpl. intros [E|E]; discriminate.
    - apply (fromhex_eight_bounds c1 c2 c3 c4 c5 c6 c7 c8)
        in H as (Hr & Hg & Hb & Ha).
      split; [exact Hr|]. split; [exact Hg|]. split; [exact Hb|].
      intros _. exact Ha. }
  destruct Hgoal as (Hr & Hg & Hb & Ha).
  split; [exact Hr|]. split; [exact Hg|]. split; [exact Hb|].
  split; [exact Ha|reflexivity].
Qed.

Lemma fromhex_component_bounds_witness :
  hex_component (-15) /\ hex_component (-15) /\ hex_component (-15) /\
  (String.length (drop_first "#-f-f-f") = 4%nat
   \/ String.length (drop_first "#-f-f-f") = 8%nat -> hex_component 255) /\
  _fromhex "#-f-f-f" (PInt 255) = Ok (mkColor (-15) (-15) (-15) 255).
Proof.
  apply (fromhex_component_bounds "#-f-f-f" (PInt 255)
           (mkColor (-15) (-15) (-15) 255)).
  reflexivity.
Defined.

(** ** The property slot *)

Lemma bind_ok_raise {A B} (r : result A) (f : A -> B) (e : exn) :
  (let* a := r in Ok (f a)) = Raise e -> r = Raise e.
Proof. destruct r; simpl; congruence. Qed.

(** X15: after a successful assignment the property reads the default when
    [None] was assigned, the assigned object when a Color was assigned, and
    otherwise the Color the constructor builds from the value; every other
    attribute of the owner is untouched.  An assignment raises only when the
    constructor raises on the value, with the same exception. *)
Theorem property_set_get (P : platform) (p : colorproperty.t)
    (self : gmap string pyval) (value : pyval) :
  (value = PNone ->
   exists self', colorproperty.fset P p self value = Ok self' /\
     colorproperty.fget p self' = colorproperty.default p /\
     forall k, k <> colorproperty.attr p -> self' !! k = self !! k) /\
  (forall i, value = PColor i ->
   exists self', colorproperty.fset P p self value = Ok self' /\
     colorproperty.fget p self' = PColor i /\
     forall k, k <> colorproperty.attr p -> self' !! k = self !! k) /\
  (forall c, value <> PNone -> (forall i, value <> PColor i) ->
   base.Color_ P [value] [] = Ok c ->
   exists self', colorproperty.fset P p self value = Ok self' /\
     colorproperty.fget p self' = PColor c /\
     forall k, k <> colorproperty.attr p -> self' !! k = self !! k) /\
  (forall e, colorproperty.fset P p self value = Raise e ->
   value <> PNone /\ (forall i, value <> PColor i) /\
   base.Color_ P [value] [] = Raise e).
Proof.
  assert (Hget : forall v, colorproperty.fget p
                   (<[colorproperty.attr p := v]> self) = v).
  { intros v. unfold colorproperty.fget. rewrite lookup_insert_eq.
    reflexivity. }
  assert (Hframe : forall v k, k <> colorproperty.attr p ->
            (<[colorproperty.attr p := v]> self) !! k = self !! k).
  { intros v k Hk. apply lookup_insert_ne. congruence. }
  split; [|split; [|split]].
  - intros ->. eexists. split; [reflexivity|]. split; [apply Hget|].
    apply Hframe.
  - intros i ->. eexists. split; [reflexivity|]. split; [apply Hget|].
    apply Hframe.
  - intros c Hn Hc Hv.
    exists (<[colorproperty.attr p := PColor c]> self).
    split; [|split; [apply Hget|apply Hframe]].
    unfold colorproperty.fset.
    destruct value; try (rewrite Hv; reflexivity);
      [contradiction|exfalso; eapply Hc; reflexivity].
  - intros e He. unfold colorproperty.fset in He.
    destruct value; cbv beta iota delta [is_None] in He;
      first [apply bind_ok_raise in He;
             (split; [discriminate|split; [discriminate|exact He]])
            |discriminate].
Qed.

Lemma property_set_get_witness :
  exists self',
    colorproperty.fset sample_platform
      {| colorproperty.name := "color"; colorproperty.attr := "_color";
         colorproperty.default := PNone |} ∅ (PStr "#102030") = Ok self' /\
    colorproperty.fget
      {| colorproperty.name := "color"; colorproperty.attr := "_color";
         colorproperty.default := PNone |} self'
      = PColor (Some (mkColor 16 32 48 255)) /\
    forall k, k <> "_color" -> self' !! k = (∅ : gmap string pyval) !! k.
Proof.
  apply (property_set_get sample_platform
           {| colorproperty.name := "color"; colorproperty.attr := "_color";
              colorproperty.default := PNone |} ∅ (PStr "#102030")).
  - discriminate.
  - discriminate.
  - vm_compute. reflexivity.
Defined.

(** X16: assigning a float stores a Color object whose slots were never
    set, without raising, because the constructor returns on an argument of
    a type it does not list. *)
Theorem property_set_float (P : platform) (p : colorproperty.t)
    (self : gmap string pyval) (f : float) :
  exists self',
    colorproperty.fset P p self (PFloat f) = Ok self' /\
    colorproperty.fget p self' = PColor None /\
    base.getattr P (colorproperty.fget p self') "rgb" = Raise AttributeError.
Proof.
  exists (<[colorproperty.attr p := PColor None]> self).
  split; [reflexivity|].
  unfold colorproperty.fget. rewrite lookup_insert_eq. split; reflexivity.
Qed.

(** X17: deleting the property removes the stored value, after which the
    property reads its default and a second deletion raises
    AttributeError, as does deleting a property that was never assigned;
    the other attributes of the owner are untouched. *)
Theorem property_delete (p : colorproperty.t) (self : gmap string pyval) :
  (self !! colorproperty.attr p = None ->
   colorproperty.fdel p self = Raise AttributeError /\
   colorproperty.fget p self = colorproperty.default p) /\
  (forall v, self !! colorproperty.attr p = Some v ->
   colorproperty.fget p self = v /\
   exists self', colorproperty.fdel p self = Ok self' /\
     colorproperty.fget p self' = colorproperty.default p /\
     colorproperty.fdel p self' = Raise AttributeError /\
     forall k, k <> colorproperty.attr p -> self' !! k = self !! k).
Proof.
  unfold colorproperty.fdel, colorproperty.fget. split.
  - intros ->. split; reflexivity.
  - intros v Hv. rewrite Hv. split; [reflexivity|].
    exists (delete (colorproperty.attr p) self).
    split; [reflexivity|]. rewrite lookup_delete_eq.
    split; [reflexivity|]. split; [reflexivity|].
    intros k Hk. apply lookup_delete_ne. congruence.
Qed.

Lemma property_delete_witness :
  colorproperty.fdel
    {| colorproperty.name := "color"; colorproperty.attr := "_color";
       colorproperty.default := PNone |} ∅ = Raise AttributeError /\
  colorproperty.fget
    {| colorproperty.name := "color"; colorproperty.attr := "_color";
       colorproperty.default := PNone |} ∅ = PNone.
Proof.
  apply (property_delete
           {| colorproperty.name := "color"; colorproperty.attr := "_color";
              colorproperty.default := PNone |} ∅).
  reflexivity.
Defined.

(** X18: a property made without a default reads [None] until assigned;
    one made with a default reads the Color built from the default; making
    it raises what the constructor raises on the default.  The value is
    kept under the name with an underscore in front. *)
Theorem property_default (P : platform) (name : string) (d : pyval) :
  (d = PNone ->
   exists p, colorproperty.__init__ P name d = Ok p /\
     colorproperty.attr p = String "_" name /\
     forall self : gmap string pyval,
       self !! String "_" name = None -> colorproperty.fget p self = PNone) /\
  (forall c, d <> PNone -> base.Color_ P [d] [] = Ok c ->
   exists p, colorproperty.__init__ P name d = Ok p /\
     colorproperty.attr p = String "_" name /\
     forall self : gmap string pyval,
       self !! String "_" name = None ->
       colorproperty.fget p self = PColor c) /\
  (forall e, d <> PNone -> base.Color_ P [d] [] = Raise e ->
   colorproperty.__init__ P name d = Raise e).
Proof.
  split; [|split].
  - intros ->. eexists. split; [reflexivity|]. split; [reflexivity|].
    intros self Hs. unfold colorproperty.fget. simpl. rewrite Hs.
    reflexivity.
  - intros c Hd Hc. unfold colorproperty.__init__.
    destruct d; try contradiction; simpl is_None; cbv iota;
      rewrite Hc; (eexists; split; [reflexivity|]; split; [reflexivity|];
      intros self Hs; unfold colorproperty.fget; simpl; rewrite Hs;
      reflexivity).
  - intros e Hd He. unfold colorproperty.__init__.
    destruct d; try contradiction; simpl is_None; cbv iota;
      rewrite He; reflexivity.
Qed.

Lemma property_default_witness :
  exists p, colorproperty.__init__ sample_platform "color" PNone = Ok p /\
    colorproperty.attr p = "_color" /\
    forall self : gmap string pyval,
      self !! "_color" = None -> colorproperty.fget p self = PNone.
Proof.
  apply (property_default sample_platform "color" PNone). reflexivity.
Defined.

(** ** Module-level conversions of other values *)

Lemma rgb_of_truthy (P : platform) (v : pyval) (name : string) :
  truthy v = true -> (forall i, v <> PColor i) ->
  try_except (base.getattr P v name) base.is_AttributeError
    (let* c := base.Color_ P [py_or v (PStr "black")] [] in
     base.getattr P (PColor c) name) =
  let* c := base.Color_ P [v] [] in base.getattr P (PColor c) name.
Proof.
  intros Ht Hc. unfold py_or. rewrite Ht.
  destruct v; try reflexivity. exfalso. eapply Hc. reflexivity.
Qed.

(** X19: for a non-zero int the module functions [rgb] and [rgba] return
    the three bytes of the packed word (and alpha 255); for a tuple of
    three ints they return its items (and alpha 255); for a non-zero float
    they raise AttributeError, because the constructor leaves the slots of
    the Color unset. *)
Theorem rgb_of_other_values (P : platform) (w r g b : Z) (f : float) :
  w <> 0 -> truthy (PFloat f) = true ->
  base.rgb P (PInt w) =
    Ok (PTuple [PInt ((w / 2 ^ 16) mod 256); PInt ((w / 2 ^ 8) mod 256);
                PInt (w mod 256)]) /\
  base.rgba P (PInt w) =
    Ok (PTuple [PInt ((w / 2 ^ 16) mod 256); PInt ((w / 2 ^ 8) mod 256);
                PInt (w mod 256); PInt 255]) /\
  base.rgb P (PTuple [PInt r; PInt g; PInt b]) =
    Ok (PTuple [PInt r; PInt g; PInt b]) /\
  base.rgba P (PTuple [PInt r; PInt g; PInt b]) =
    Ok (PTuple [PInt r; PInt g; PInt b; PInt 255]) /\
  base.rgb P (PFloat f) = Raise AttributeError /\
  base.rgba P (PFloat f) = Raise AttributeError.
Proof.
  intros Hw Hf.
  assert (Ht : truthy (PInt w) = true)
    by (simpl; destruct (Z.eqb_spec w 0); [contradiction|reflexivity]).
  split; [|split; [|split; [|split; [|split]]]].
  - unfold base.rgb. rewrite rgb_of_truthy by (assumption || discriminate).
    unfold base.Color_. rewrite init_packed. reflexivity.
  - unfold base.rgba. rewrite rgb_of_truthy by (assumption || discriminate).
    unfold base.Color_. rewrite init_packed. reflexivity.
  - unfold base.rgb.
    rewrite rgb_of_truthy by (reflexivity || discriminate). reflexivity.
  - unfold base.rgba.
    rewrite rgb_of_truthy by (reflexivity || discriminate). reflexivity.
  - unfold base.rgb. rewrite rgb_of_truthy by (assumption || discriminate).
    reflexivity.
  - unfold base.rgba. rewrite rgb_of_truthy by (assumption || discriminate).
    reflexivity.
Qed.

Lemma rgb_of_other_values_witness :
  base.rgb sample_platform (PInt 0x102030) =
    Ok (PTuple [PInt ((0x102030 / 2 ^ 16) mod 256);
                PInt ((0x102030 / 2 ^ 8) mod 256); PInt (0x102030 mod 256)])
  /\ base.rgb sample_platform (PFloat 1.5) = Raise AttributeError.
Proof.
  destruct (rgb_of_other_values sample_platform 0x102030 1 2 3 1.5)
    as (H1 & _ & _ & _ & H5 & _); [lia|reflexivity|].
  split; [exact H1|exact H5].
Defined.

(** ** Errors of copy *)

(** X20: [copy] on an object whose slots were never set raises
    AttributeError, whatever the other arguments are; on a Color, any
    keyword other than the four components raises NotImplementedError; an
    override given as a float is truncated towards zero by the
    constructor. *)
Theorem copy_errors (P : platform) (cache : gmap string instance)
    (st : store) (self : nat) (red green blue alpha : pyval)
    (kwds : kwargs) (c : Color) :
  (st !! self = Some None ->
   copy P cache st self red green blue alpha kwds = Raise AttributeError) /\
  (st !! self = Some (Some c) -> kwds <> [] ->
   copy P cache st self red green blue alpha kwds
     = Raise NotImplementedError) /\
  (st !! self = Some (Some c) ->
   copy P cache st self (PFloat 80.75) PNone PNone PNone [] =
     Ok ((st ++ [Some (mkColor 80 (_green c) (_blue c) (_alpha c))])%list,
         length st)).
Proof.
  unfold copy, unpack_self. split; [|split].
  - intros ->. reflexivity.
  - intros -> Hk. destruct kwds; [contradiction|reflexivity].
  - intros ->. reflexivity.
Qed.

Lemma copy_errors_witness :
  copy sample_platform ∅ [None] 0 PNone PNone PNone PNone []
    = Raise AttributeError /\
  copy sample_platform ∅ [Some (mkColor 1 2 3 4)] 0 PNone PNone PNone PNone
    [("hue", PInt 3)] = Raise NotImplementedError.
Proof.
  split.
  - apply (copy_errors sample_platform ∅ [None] 0 PNone PNone PNone PNone []
             (mkColor 0 0 0 0)).
    reflexivity.
  - apply (copy_errors sample_platform ∅ [Some (mkColor 1 2 3 4)] 0
             PNone PNone PNone PNone [("hue", PInt 3)] (mkColor 1 2 3 4));
      [reflexivity|discriminate].
Defined.

(** ** Shape of the hue, saturation, intensity tuple *)

Lemma bind_ok_inv {A B} (r : result A) (k : A -> result B) (b : B) :
  (let* a := r in k a) = Ok b -> exists a, r = Ok a /\ k a = Ok b.
Proof. destruct r as [a|e]; simpl; [eauto|discriminate]. Qed.

Lemma float_truediv_ok (x y q : float) :
  float_truediv x y = Ok q ->
  PrimFloat.eqb y 0%float = false /\ q = PrimFloat.div x y.
Proof.
  unfold float_truediv. destruct (PrimFloat.eqb y 0%float); [discriminate|].
  intros H. injection H as <-. split; reflexivity.
Qed.

(** X21: when [hsia] returns, the result is a 4-tuple of three floats and
    the alpha of the color; the intensity is the mean of the three
    components as the int division by 3 rounds it and is not zero, the
    saturation is 1 minus the least component over the intensity, and [hsi]
    returns the first three items. *)
Theorem hsia_shape (P : platform) (c : Color) (t : pyval) :
  hsia P c = Ok t ->
  exists h s i m : float,
    t = PTuple [PFloat h; PFloat s; PFloat i; PInt (_alpha c)] /\
    int_truediv (_red c + _green c + _blue c) 3 = Ok i /\
    PrimFloat.eqb i 0%float = false /\
    float_of_int (Z.min (_red c) (Z.min (_green c) (_blue c))) = Ok m /\
    s = PrimFloat.sub 1%float (PrimFloat.div m i) /\
    hsi P c = Ok (PTuple [PFloat h; PFloat s; PFloat i]).
Proof.
  intros H. pose proof H as H0. unfold hsia in H. cbv zeta in H.
  apply bind_ok_inv in H as (i & Hi & H).
  apply bind_ok_inv in H as (m & Hm & H).
  apply bind_ok_inv in H as (q & Hq & H).
  apply bind_ok_inv in H as (r & Hr & H).
  apply bind_ok_inv in H as (g & Hg & H).
  apply bind_ok_inv in H as (b & Hb & H).
  apply bind_ok_inv in H as (x & Hx & H).
  apply bind_ok_inv in H as (hn & Hhn & H).
  apply bind_ok_inv in H as (p & Hp & H).
  apply bind_ok_inv in H as (hd & Hhd & H).
  apply bind_ok_inv in H as (h & Hh & H).
  injection H as <-.
  apply float_truediv_ok in Hq as (Hi0 & ->).
  exists h, (PrimFloat.sub 1%float (PrimFloat.div m i)), i, m.
  split; [reflexivity|]. split; [exact Hi|]. split; [exact Hi0|].
  split; [exact Hm|]. split; [reflexivity|].
  unfold hsi. rewrite H0. reflexivity.
Qed.

Lemma hsia_shape_witness :
  exists h s i m : float,
    PTuple [PFloat 0; PFloat 1; PFloat 85; PInt 255] =
      PTuple [PFloat h; PFloat s; PFloat i;
              PInt (_alpha (mkColor 255 0 0 255))] /\
    int_truediv (_red (mkColor 255 0 0 255) + _green (mkColor 255 0 0 255)
                 + _blue (mkColor 255 0 0 255)) 3 = Ok i /\
    PrimFloat.eqb i 0%float = false /\
    float_of_int (Z.min (_red (mkColor 255 0 0 255))
                    (Z.min (_green (mkColor 255 0 0 255))
                       (_blue (mkColor 255 0 0 255)))) = Ok m /\
    s = PrimFloat.sub 1%float (PrimFloat.div m i) /\
    hsi sample_platform (mkColor 255 0 0 255)
      = Ok (PTuple [PFloat h; PFloat s; PFloat i]).
Proof.
  apply (hsia_shape sample_platform (mkColor 255 0 0 255)).
  vm_compute. reflexivity.
Defined.
